(** * capcalc.niftidecomp: a shallow embedding of [niftidecomp_workflow]

    The workflow of [src/capcalc/niftidecomp.py] is embedded as a function in
    a writer/error monad: the writer records what the run prints and which
    files it touches, the error part carries Python exceptions (among them
    [SystemExit], raised by [sys.exit()] and [exit()]).  Numbers are IEEE-754
    binary64 values ([spec_float] at precision 53), arrays are lists, and the
    collaborators the file imports (capcalc.io, capcalc.filter, numpy
    reductions, statsmodels, scikit-learn, joblib) are the fields of a record
    [World] the workflow is parameterised by. *)

From Stdlib Require Import ZArith Floats.SpecFloat Lia.
From stdpp Require Import base list strings pretty.

Local Open Scope string_scope.
Local Open Scope list_scope.
Local Open Scope nat_scope.

(** * Binary64 numbers *)

Module F64.

Definition prec : Z := 53.
Definition emax : Z := 1024.

Definition float : Type := spec_float.

Definition add : float → float → float := SFadd prec emax.
Definition sub : float → float → float := SFsub prec emax.
Definition mul : float → float → float := SFmul prec emax.
Definition div : float → float → float := SFdiv prec emax.

(** [x < y] and [x > y] of Python floats; both are [False] on NaN. *)
Definition ltb (x y : float) : bool := SFltb x y.
Definition gtb (x y : float) : bool := SFltb y x.

Definition of_Z (z : Z) : float := binary_normalize prec emax z 0 false.
Definition of_nat (n : nat) : float := of_Z (Z.of_nat n).

Definition zero : float := S754_zero false.
Definition one : float := Eval cbv in of_Z 1.
Definition hundred : float := Eval cbv in of_Z 100.
Definition half : float := Eval cbv in binary_normalize prec emax 1 (-1) false.
Definition quarter : float := Eval cbv in binary_normalize prec emax 1 (-2) false.
Definition nan : float := S754_nan.
Definition inf : float := S754_infinity false.
Definition max_float : float := Eval cbv in SFmax_float prec emax.
Definition min_float : float := Eval cbv in SFopp max_float.

Definition is_nan (x : float) : bool :=
  match x with S754_nan => true | _ => false end.
Definition is_inf (x : float) : bool :=
  match x with S754_infinity _ => true | _ => false end.
Definition is_finite (x : float) : bool :=
  match x with S754_zero _ | S754_finite _ _ _ => true | _ => false end.
Definition is_zero (x : float) : bool :=
  match x with S754_zero _ => true | _ => false end.
Definition sign (x : float) : bool :=
  match x with
  | S754_zero s | S754_infinity s | S754_finite s _ _ => s
  | S754_nan => false
  end.

(** [np.nan_to_num] on one float64 with its default arguments
    ([nan=0.0, posinf=None, neginf=None]): NaN becomes [0.0], the
    infinities become the largest and the most negative finite double. *)
Definition nan_to_num (x : float) : float :=
  match x with
  | S754_nan => zero
  | S754_infinity false => max_float
  | S754_infinity true => min_float
  | _ => x
  end.

End F64.

Abbreviation float := F64.float.

(** * Python values, exceptions and the trace of a run *)

(** The values [pcacomponents] ranges over and [print] is given. *)
Inductive pyval :=
| PyFloat (f : float)
| PyInt (z : Z)
| PyStr (s : string)
| PyNone.

(** An exception object as the [except Exception as ex] handler sees it:
    [type(ex).__name__] and [repr(ex.args)]. *)
Record pyexc := PyExc { exc_type : string; exc_args : string }.

Inductive exn :=
| SystemExit
| NameError (name : string)
| UnboundLocalError (name : string)
| TypeError (msg : string)
| ValueError (msg : string)
| IndexError (msg : string)
| Foreign (e : pyexc).

Inductive event :=
| Print (items : list pyval)
| ReadNifti (name : option string)
| JoblibLoad (path : string)
| JoblibDump (path : string)
| NewEstimator (class : string) (n_components : pyval)
| FitEstimator.

Inductive outcome (A : Type) :=
| Ret (a : A)
| Raise (e : exn).
Arguments Ret {A} a.
Arguments Raise {A} e.

(** A computation: what it wrote, then how it ended. *)
Definition M (A : Type) : Type := list event * outcome A.

Definition ret {A} (a : A) : M A := ([], Ret a).
Definition raise {A} (e : exn) : M A := ([], Raise e).
Definition emit (ev : event) : M unit := ([ev], Ret tt).
Definition lift {A} (o : outcome A) : M A := ([], o).

Definition bind {A B} (m : M A) (k : A → M B) : M B :=
  match m with
  | (t, Ret a) => let '(t', r) := k a in (t ++ t', r)
  | (t, Raise e) => (t, Raise e)
  end.

#[global] Instance M_ret : MRet M := @ret.
#[global] Instance M_bind : MBind M := λ A B k m, bind m k.

Definition print (items : list pyval) : M unit := emit (Print items).
Definition sys_exit {A} : M A := raise SystemExit.

(** [for x in xs: body], threading the variables the body assigns. *)
Fixpoint mfor {A S} (xs : list A) (body : A → S → M S) (s : S) : M S :=
  match xs with
  | [] => mret s
  | x :: xs' => s' ← body x s; mfor xs' body s'
  end.

Definition trace {A} (m : M A) : list event := fst m.
Definition result {A} (m : M A) : outcome A := snd m.

Definition returns {A} (m : M A) : Prop := ∃ a, result m = Ret a.

Definition tab : string := String (Ascii.ascii_of_nat 9) "".
Definition newline : string := String (Ascii.ascii_of_nat 10) "".

(** * Arrays *)

(** A 2-D float64 array: [shape = (length rows, ncols)]. *)
Record ndarray2 := Mat { ncols : nat; rows : list (list float) }.

(** An n-D array as read from an image file: its shape and its elements
    in C (row-major) order. *)
Record ndarray := NdArray { shape : list nat; buf : list float }.

Definition nrows (m : ndarray2) : nat := length (rows m).

Definition wf_mat (m : ndarray2) : Prop :=
  Forall (λ r, length r = ncols m) (rows m).

Definition item (m : ndarray2) (i j : nat) : option float :=
  rows m !! i ≫= (.!! j).

(** [np.zeros((n, k))]. *)
Definition zeros (n k : nat) : ndarray2 :=
  Mat k (replicate n (replicate k F64.zero)).

(** [m[:, j]]. *)
Definition column (m : ndarray2) (j : nat) : list float :=
  omap (.!! j) (rows m).

(** [np.transpose(m)]. *)
Definition transpose (m : ndarray2) : ndarray2 :=
  Mat (nrows m) (map (column m) (seq 0 (ncols m))).

(** [l[k]] for a 1-D array, [IndexError] out of range. *)
Definition getitem (l : list float) (k : nat) : M float :=
  match l !! k with
  | Some x => mret x
  | None => raise (IndexError "index out of bounds")
  end.

(** [m[:, j] = f(m[:, j])] elementwise, as [m[:, j] -= c] and
    [m[:, j] /= c] do in place. *)
Definition alter_column (f : float → float) (j : nat) (m : ndarray2) : ndarray2 :=
  Mat (ncols m) (map (alter f j) (rows m)).

(** Splitting a C-ordered buffer into consecutive runs of [k], which is
    what adding a leading axis by [reshape] does. *)
Fixpoint chunks {A} (n k : nat) (l : list A) : list (list A) :=
  match n with
  | 0 => []
  | S n' => take k l :: chunks n' k (drop k l)
  end.

(** [np.where(bs)[0]] for a 1-D boolean array: the indices holding [True],
    ascending. *)
Fixpoint where_from (i : nat) (bs : list bool) : list nat :=
  match bs with
  | [] => []
  | b :: bs' => (if b then [i] else []) ++ where_from (S i) bs'
  end.

Definition np_where (bs : list bool) : list nat := where_from 0 bs.

#[global] Instance float_inhabited : Inhabited float := populate F64.zero.

Definition product (l : list nat) : nat := foldr Nat.mul 1 l.

(** [a.reshape((n))]: the elements in C order, when there are [n] of them. *)
Definition reshape1 (a : ndarray) (n : nat) : M (list float) :=
  if length (buf a) =? n then mret (buf a)
  else raise (ValueError "cannot reshape array").

(** [a.reshape((n, t))]. *)
Definition reshape2 (a : ndarray) (n t : nat) : M ndarray2 :=
  if length (buf a) =? n * t then mret (Mat t (chunks n t (buf a)))
  else raise (ValueError "cannot reshape array").

(** [a[:, :, :, i]]: the [i]th entry along the fourth axis. *)
Definition get_frame (a : ndarray) (i : nat) : M ndarray :=
  match shape a with
  | x :: y :: s :: t :: rest =>
      if i <? t then
        let r := product rest in
        mret (NdArray (x :: y :: s :: rest)
                (flat_map (λ v, map (λ k, buf a !!! ((v * t + i) * r + k)) (seq 0 r))
                          (seq 0 (x * y * s))))
      else raise (IndexError "index out of bounds")
  | _ => raise (IndexError "too many indices for array")
  end.

(** [a[:, :, :, i] = fr], for [fr] of the shape of [a[:, :, :, i]]. *)
Definition set_frame (a : ndarray) (i : nat) (fr : ndarray) : M ndarray :=
  match shape a with
  | x :: y :: s :: t :: rest =>
      if i <? t then
        if decide (shape fr = x :: y :: s :: rest) then
          let r := product rest in
          mret (NdArray (shape a)
                  (imap (λ k old, if (k / r) mod t =? i
                                  then buf fr !!! (k / (t * r) * r + k mod r)
                                  else old) (buf a)))
        else raise (ValueError "could not broadcast input array")
      else raise (IndexError "index out of bounds")
  | _ => raise (IndexError "too many indices for array")
  end.

(** [a[:, :, :, :]]. *)
Definition getitem_4slices (a : ndarray) : M ndarray :=
  if 4 <=? length (shape a) then mret a
  else raise (IndexError "too many indices for array").

(** [m[i, :]]. *)
Definition get_row (m : ndarray2) (i : nat) : M (list float) :=
  match rows m !! i with
  | Some r => mret r
  | None => raise (IndexError "index out of bounds")
  end.

(** [m[i, :] = r]; a one-element [r] is broadcast along the row. *)
Definition set_row (m : ndarray2) (i : nat) (r : list float) : M ndarray2 :=
  if i <? nrows m then
    if length r =? ncols m then mret (Mat (ncols m) (<[i := r]> (rows m)))
    else match r with
         | [c] => mret (Mat (ncols m) (<[i := replicate (ncols m) c]> (rows m)))
         | _ => raise (ValueError "could not broadcast input array")
         end
  else raise (IndexError "index out of bounds").

(** [m[:, lo:hi] = block], for [block] of the shape of [m[:, lo:hi]];
    a slice is clipped to the array. *)
Definition set_column_slice (m : ndarray2) (lo hi : nat) (block : ndarray2) : M ndarray2 :=
  let lo' := lo `min` ncols m in
  let hi' := hi `min` ncols m in
  if (nrows block =? nrows m) && (ncols block =? hi' - lo') then
    mret (Mat (ncols m)
            (zip_with (λ r b, take lo' r ++ b ++ drop (lo' `max` hi') r)
                      (rows m) (rows block)))
  else raise (ValueError "could not broadcast input array").

(** [m[locs, :][0]] for the index tuple [locs = (array,)] that [np.where]
    returns: the rows of [m] at the listed positions. *)
Definition take_rows (m : ndarray2) (locs : list nat) : M ndarray2 :=
  rs ← mfor locs (λ p acc, r ← get_row m p; mret (acc ++ [r])) [];
  mret (Mat (ncols m) rs).

(** [a[0:z]] along the first axis, with Python's reading of a negative
    bound. *)
Definition slice_rows (m : ndarray2) (z : Z) : ndarray2 :=
  let stop := if (z <? 0)%Z then Z.to_nat (Z.of_nat (nrows m) + z) else Z.to_nat z in
  Mat (ncols m) (take stop (rows m)).

(** A 4-D array by its shape and nested cells. *)
Record ndarray4 := Arr4 {
  shape4 : nat * nat * nat * nat;
  cells : list (list (list (list float)))
}.

Definition item4 (a : ndarray4) (i j k f : nat) : option float :=
  plane ← cells a !! i; line ← plane !! j; cell ← line !! k; cell !! f.

(** [m.reshape((x, y, s, k))] for [m] of shape [(n, k)]. *)
Definition reshape4 (m : ndarray2) (x y s k : nat) : M ndarray4 :=
  if nrows m * ncols m =? x * y * s * k then
    mret (Arr4 (x, y, s, k)
            (chunks x y (chunks (x * y) s (chunks (x * y * s) k (concat (rows m))))))
  else raise (ValueError "cannot reshape array").

(** The rows of [src] broadcast to the shape [(n, k)]: an axis of
    length 1 is repeated. *)
Definition broadcast_rows (src : ndarray2) (n k : nat) : M (list (list float)) :=
  if ((ncols src =? k) || (ncols src =? 1)) && ((nrows src =? n) || (nrows src =? 1))
  then
    let widen r := if ncols src =? k then r else replicate k (r !!! 0) in
    mret (map widen (if nrows src =? n then rows src
                     else replicate n (rows src !!! 0)))
  else raise (ValueError "shape mismatch: value array could not be broadcast").

(** [out[locs, :] = src[:, :]]: row [j] of [src] goes to row [locs[j]] of
    [out]. *)
Definition scatter_rows (out : ndarray2) (locs : list nat) (src : ndarray2) : M ndarray2 :=
  if forallb (λ p, p <? nrows out) locs then
    vals ← broadcast_rows src (length locs) (ncols out);
    mret (Mat (ncols out)
            (foldl (λ acc pr, <[pr.1 := pr.2]> acc) (rows out) (zip locs vals)))
  else raise (IndexError "index out of bounds").

(** * The collaborators *)

Record header := Header { hdr_dim : list nat; hdr_rest : string }.

(** What [tide_io.readfromnifti] returns, less the image handle, which the
    workflow never uses. *)
Record nifti := Nifti {
  nim_data : ndarray;
  nim_hdr : header;
  nim_dims : list nat;
  nim_sizes : list float
}.

(** Everything [niftidecomp.py] imports and calls.  [capcalc.io] and
    [capcalc.filter] are modules of the package whose code is not part of
    this development, numpy, statsmodels, scikit-learn and joblib are
    libraries: all are taken as parameters, with the signatures the
    workflow uses them at.  [Model] is the type of scikit-learn
    estimators.  A collaborator that can raise returns an [outcome];
    [joblib_load] returns the [Exception] a failed load raised, since the
    workflow inspects it. *)
Record World (Model : Type) := {
  readfromnifti : option string → outcome nifti;
  parseniftidims : list nat → nat * nat * nat * nat;
  parseniftisizes : list float → float * float * float * float;
  checkspacedimmatch : list nat → list nat → bool;
  checktimematch : list nat → list nat → bool;
  ssmooth : float → float → float → float → ndarray → ndarray;
  np_mean : list float → float;
  np_std : list float → float;
  np_var : list float → float;
  np_max : list float → outcome float;
  np_min : list float → outcome float;
  mad : list float → float;
  FastICA : pyval → Model;
  PCA : pyval → Model;
  SparsePCA : pyval → Model;
  joblib_load : string → pyexc + Model;
  joblib_dump : Model → string → outcome unit;
  fit : Model → ndarray2 → outcome Model;
  transform : Model → ndarray2 → outcome ndarray2;
  inverse_transform : Model → ndarray2 → outcome ndarray2;
  components_ : Model → outcome ndarray2;
  explained_variance_ratio_ : Model → outcome (list float)
}.

Arguments readfromnifti {Model} _ _.
Arguments parseniftidims {Model} _ _.
Arguments parseniftisizes {Model} _ _.
Arguments checkspacedimmatch {Model} _ _ _.
Arguments checktimematch {Model} _ _ _.
Arguments ssmooth {Model} _ _ _ _ _ _.
Arguments np_mean {Model} _ _.
Arguments np_std {Model} _ _.
Arguments np_var {Model} _ _.
Arguments np_max {Model} _ _.
Arguments np_min {Model} _ _.
Arguments mad {Model} _ _.
Arguments FastICA {Model} _ _.
Arguments PCA {Model} _ _.
Arguments SparsePCA {Model} _ _.
Arguments joblib_load {Model} _ _.
Arguments joblib_dump {Model} _ _ _.
Arguments fit {Model} _ _ _.
Arguments transform {Model} _ _ _.
Arguments inverse_transform {Model} _ _ _.
Arguments components_ {Model} _ _.
Arguments explained_variance_ratio_ {Model} _ _.

(** The arguments of [niftidecomp_workflow]; a prefilter object is its
    [apply] method. *)
Record args := Args {
  datafilelist : list string;
  outputroot : string;
  datamaskname : option string;
  decomptype : string;
  pcacomponents : pyval;
  icacomponents : option Z;
  trainedmodelroot : option string;
  normmethod : string;
  demean : bool;
  theprefilter : option (float → list float → list float);
  sigma : float;
  maskthresh : float
}.

(** A call that leaves every keyword argument at its default. *)
Definition default_args (datafilelist : list string) (outputroot : string) : args := {|
  datafilelist := datafilelist;
  outputroot := outputroot;
  datamaskname := None;
  decomptype := "pca";
  pcacomponents := PyFloat F64.half;
  icacomponents := None;
  trainedmodelroot := None;
  normmethod := "None";
  demean := true;
  theprefilter := None;
  sigma := F64.zero;
  maskthresh := F64.quarter
|}.

(** * Python expressions the workflow evaluates *)

(** How an int compares with a float: exactly, as Python does, without
    rounding the int first. *)
Definition Z_compare_float (z : Z) (c : float) : option comparison :=
  match c with
  | S754_nan => None
  | S754_infinity s => Some (if s then Gt else Lt)
  | S754_zero _ => Some (z ?= 0)%Z
  | S754_finite s m e =>
      let v := cond_Zopp s (Zpos m) in
      Some (if (0 <=? e)%Z then (z ?= v * 2 ^ e)%Z else (z * 2 ^ (- e) ?= v)%Z)
  end.

(** [c < v] and [v < c] for a float [c]. *)
Definition py_float_lt (c : float) (v : pyval) : M bool :=
  match v with
  | PyFloat f => mret (F64.ltb c f)
  | PyInt z => mret (bool_decide (Z_compare_float z c = Some Gt))
  | PyStr _ =>
      raise (TypeError "'<' not supported between instances of 'float' and 'str'")
  | PyNone =>
      raise (TypeError "'<' not supported between instances of 'float' and 'NoneType'")
  end.

Definition py_lt_float (v : pyval) (c : float) : M bool :=
  match v with
  | PyFloat f => mret (F64.ltb f c)
  | PyInt z => mret (bool_decide (Z_compare_float z c = Some Lt))
  | PyStr _ =>
      raise (TypeError "'<' not supported between instances of 'str' and 'float'")
  | PyNone =>
      raise (TypeError "'<' not supported between instances of 'NoneType' and 'float'")
  end.

(** [v * c] for a float constant [c]. *)
Definition py_mul_float (v : pyval) (c : float) : M pyval :=
  match v with
  | PyFloat f => mret (PyFloat (F64.mul f c))
  | PyInt z => mret (PyFloat (F64.mul (F64.of_Z z) c))
  | PyStr _ => raise (TypeError "can't multiply sequence by non-int of type 'float'")
  | PyNone => raise (TypeError "unsupported operand type(s) for *: 'NoneType' and 'float'")
  end.

(** [a[0:v]] along the first axis. *)
Definition py_slice_rows (m : ndarray2) (v : pyval) : M ndarray2 :=
  match v with
  | PyInt z => mret (slice_rows m z)
  | PyNone => mret m
  | _ => raise (TypeError "slice indices must be integers or None or have an __index__ method")
  end.

(** The names bound at module level in [niftidecomp.py]: its imports and
    the function itself.  None of them can be subscripted. *)
Definition module_globals : list string :=
  ["argparse"; "sys"; "joblib"; "np"; "PCA"; "FastICA"; "SparsePCA"; "mad";
   "tide_filt"; "tide_io"; "niftidecomp_workflow"].

(** Reading a name that the function never assigns and that is no
    builtin: a global of the module, else [NameError].  What comes back
    is a module, class or function. *)
Definition load_global (name : string) : M string :=
  if decide (name ∈ module_globals) then mret name else raise (NameError name).

(** [g[i]] for such a module, class or function [g]. *)
Definition subscript_global (g : string) (i : nat) : M float :=
  raise (TypeError "object is not subscriptable").

(** Reading a local variable that some branch of the function assigns. *)
Definition load_local {A} (name : string) (v : option A) : M A :=
  match v with
  | Some a => mret a
  | None => raise (UnboundLocalError name)
  end.

Fixpoint mmap {A B} (f : A → M B) (l : list A) : M (list B) :=
  match l with
  | [] => mret []
  | x :: l' => y ← f x; ys ← mmap f l'; mret (y :: ys)
  end.

(** * The workflow *)

Section Workflow.

Context {Model : Type} (W : World Model).

Definition call_readfromnifti (name : option string) : M nifti :=
  emit (ReadNifti name);; lift (readfromnifti W name).

Definition call_fit (estimator : Model) (data : ndarray2) : M Model :=
  emit FitEstimator;; lift (fit W estimator data).

(** ** Mask Selector: lines 45-67 *)

Record mask_vars := MaskVars {
  datamaskdims : list nat;
  mask_xsize : nat;
  mask_ysize : nat;
  mask_numslices : nat;
  numspatiallocs : nat;
  mask_proclocs : list nat
}.

Definition mask_selector (a : args) : M mask_vars :=
  print [PyStr ("Will perform " +:+ decomptype a
                +:+ " analysis along the spatial dimension")];;
  print [PyStr "reading in mask array"];;
  datamask ← call_readfromnifti (datamaskname a);
  let '(xsize, ysize, numslices, mask_timepoints) :=
    parseniftidims W (nim_dims datamask) in
  let numspatiallocs := xsize * ysize * numslices in
  if mask_timepoints =? 1 then
    themask ← reshape1 (nim_data datamask) numspatiallocs;
    mret (MaskVars (nim_dims datamask) xsize ysize numslices numspatiallocs
            (np_where (map (λ v, F64.gtb v (maskthresh a)) themask)))
  else
    print [PyStr "mask must have only 3 dimensions"];;
    sys_exit.

(** ** Volume Stacker: lines 69-112 *)

Record stack_vars := StackVars {
  xsize : nat;
  ysize : nat;
  numslices : nat;
  timepoints : nat;
  xdim : float;
  ydim : float;
  slicethickness : float;
  tr : float;
  totaltimepoints : nat;
  originaldatafiledims : list nat;
  rs_datafile : ndarray2;
  datafile_hdr : header;
  datafiledims : list nat;
  datafilesizes : list float
}.

(** Lines 82-93: the first file fixes the geometry, the later ones
    are checked against it. *)
Definition first_or_check (nsl numfiles idx : nat) (nim : nifti)
    (st : option stack_vars) : M stack_vars :=
  if idx =? 0 then
    let '(x, y, s, t) := parseniftidims W (nim_dims nim) in
    let '(xd, yd, sl, r) := parseniftisizes W (nim_sizes nim) in
    mret (StackVars x y s t xd yd sl r (t * numfiles) (nim_dims nim)
            (zeros nsl (t * numfiles))
            (nim_hdr nim) (nim_dims nim) (nim_sizes nim))
  else
    orig ← load_local "originaldatafiledims" (originaldatafiledims <$> st);
    if negb (checkspacedimmatch W (nim_dims nim) orig)
       || negb (checktimematch W (nim_dims nim) orig)
    then
      print [PyStr "all input data files must have the same dimensions"];;
      sys_exit
    else
      v ← load_local "timepoints" st;
      mret (StackVars (xsize v) (ysize v) (numslices v) (timepoints v)
              (xdim v) (ydim v) (slicethickness v) (tr v)
              (totaltimepoints v) (originaldatafiledims v) (rs_datafile v)
              (nim_hdr nim) (nim_dims nim) (nim_sizes nim)).

(** Lines 95-101. *)
Definition smooth_data (a : args) (v : stack_vars) (data : ndarray) : M ndarray :=
  if F64.gtb (sigma a) F64.zero then
    print [PyStr (tab +:+ "smoothing data")];;
    mfor (seq 0 (timepoints v))
         (λ i d,
            fr ← get_frame d i;
            set_frame d i
              (ssmooth W (xdim v) (ydim v) (slicethickness v) (sigma a) fr))
         data
  else mret data.

(** Lines 103-108.  [rs_singlefile] is taken to be a view of
    [datafile_data], as [reshape] gives for a C-contiguous array, so the
    filtered rows are written through. *)
Definition prefilter_data (a : args) (nsl : nat) (v : stack_vars)
    (data : ndarray) : M ndarray :=
  match theprefilter a with
  | Some apply =>
      print [PyStr (tab +:+ "temporally filtering data")];;
      rs_singlefile ← reshape2 data nsl (timepoints v);
      filtered ← mfor (seq 0 nsl)
                   (λ i m,
                      r ← get_row m i;
                      set_row m i (apply (F64.div F64.one (tr v)) r))
                   rs_singlefile;
      mret (NdArray (shape data) (concat (rows filtered)))
  | None => mret data
  end.

(** One turn of the loop over [enumerate(datafilelist)]. *)
Definition read_datafile (a : args) (nsl numfiles : nat)
    (entry : nat * string) (st : option stack_vars) : M (option stack_vars) :=
  let '(idx, datafile) := entry in
  print [PyStr ("reading " +:+ datafile +:+ "...")];;
  nim ← call_readfromnifti (Some datafile);
  v ← first_or_check nsl numfiles idx nim st;
  smoothed ← smooth_data a v (nim_data nim);
  filtered ← prefilter_data a nsl v smoothed;
  whole ← getitem_4slices filtered;
  block ← reshape2 whole nsl (timepoints v);
  stacked ← set_column_slice (rs_datafile v)
              (idx * timepoints v) ((idx + 1) * timepoints v) block;
  mret (Some (StackVars (xsize v) (ysize v) (numslices v) (timepoints v)
                (xdim v) (ydim v) (slicethickness v) (tr v)
                (totaltimepoints v) (originaldatafiledims v) stacked
                (datafile_hdr v) (datafiledims v) (datafilesizes v))).

Definition volume_stacker (a : args) (nsl : nat) : M (option stack_vars) :=
  print [PyStr "reading in data files"];;
  let numfiles := length (datafilelist a) in
  mfor (zip (seq 0 numfiles) (datafilelist a)) (read_datafile a nsl numfiles) None.

(** ** Voxel selection: lines 114-131 *)

Record masked_vars := MaskedVars {
  proclocs : list nat;
  procdata : ndarray2
}.

(** Lines 122-127: the voxels whose range over time is positive. *)
Definition nonzero_range_locs (nsl : nat) (rs : ndarray2) : M (list nat) :=
  themaxes ← mmap (λ r, lift (np_max W r)) (rows rs);
  themins ← mmap (λ r, lift (np_min W r)) (rows rs);
  let thediffs := zip_with F64.sub themaxes themins in
  if length thediffs =? nsl then
    mret (np_where (map (λ d, F64.gtb d F64.zero) thediffs))
  else raise (ValueError "cannot reshape array").

Definition masking_arrays (a : args) (mv : mask_vars)
    (st : option stack_vars) : M masked_vars :=
  match datamaskname a with
  | Some _ =>
      print [PyStr "checking mask dimensions"];;
      dims ← load_local "datafiledims" (datafiledims <$> st);
      if negb (checkspacedimmatch W dims (datamaskdims mv)) then
        print [PyStr "input mask spatial dimensions do not match image"];;
        sys_exit
      else mret tt
  | None => mret tt
  end;;
  print [PyStr "masking arrays"];;
  (* line 123 rebinds [datamaskdims], which nothing reads afterwards *)
  locs ← match datamaskname a with
         | None =>
             rs ← load_local "rs_datafile" (rs_datafile <$> st);
             nonzero_range_locs (numspatiallocs mv) rs
         | Some _ => mret (mask_proclocs mv)
         end;
  rs ← load_local "rs_datafile" (rs_datafile <$> st);
  pd ← take_rows rs locs;
  print [PyStr "data shapes:"];;
  print [PyStr (tab +:+ pretty (nrows rs) +:+ " total voxels, "
                +:+ pretty (ncols rs) +:+ " time points")];;
  print [PyStr (tab +:+ pretty (nrows pd) +:+ " valid voxels, "
                +:+ pretty (ncols pd) +:+ " time points")];;
  mret (MaskedVars locs pd).

(** ** Normalizer: lines 133-163 *)

Record norm_vars := NormVars {
  normdata : ndarray2;
  themean : list float;
  thenormfac : list float
}.

(** [reduce(m, axis=0)] for a reduction of one column. *)
Definition over_columns (reduce : list float → float) (m : ndarray2) : list float :=
  map (λ j, reduce (column m j)) (seq 0 (ncols m)).

Definition over_columns_M (reduce : list float → outcome float) (m : ndarray2)
    : M (list float) :=
  mmap (λ j, lift (reduce (column m j))) (seq 0 (ncols m)).

(** Lines 135-138. *)
Definition demean_columns (a : args) (mean : list float) (pd : ndarray2) : M ndarray2 :=
  if demean a then
    print [PyStr "demeaning array"];;
    mfor (seq 0 (ncols pd))
         (λ i p, c ← getitem mean i; mret (alter_column (λ x, F64.sub x c) i p))
         pd
  else mret pd.

(** Lines 140-160: the factor for each time point. *)
Definition normalization_factor (a : args) (mean : list float) (pd : ndarray2)
    : M (list float) :=
  if decide (normmethod a = "None") then
    print [PyStr "will not normalize timecourses"];;
    mret (map (λ m, F64.add (F64.mul m F64.zero) F64.one) mean)
  else if decide (normmethod a = "percent") then
    print [PyStr "will normalize timecourses to percentage of mean"];;
    mret mean
  else if decide (normmethod a = "stddev") then
    print [PyStr "will normalize timecourses to standard deviation of 1.0"];;
    mret (over_columns (np_std W) pd)
  else if decide (normmethod a = "z") then
    print [PyStr "will normalize timecourses to variance of 1.0"];;
    mret (over_columns (np_var W) pd)
  else if decide (normmethod a = "p2p") then
    print [PyStr "will normalize timecourses to p-p deviation of 1.0"];;
    maxes ← over_columns_M (np_max W) pd;
    mins ← over_columns_M (np_min W) pd;
    mret (zip_with F64.sub maxes mins)
  else if decide (normmethod a = "mad") then
    print [PyStr "will normalize timecourses to median average deviate of 1.0"];;
    mret (over_columns (mad W) pd)
  else
    print [PyStr "illegal normalization type"];;
    sys_exit.

(** Lines 161-162. *)
Definition divide_columns (fac : list float) (pd : ndarray2) : M ndarray2 :=
  mfor (seq 0 (ncols pd))
       (λ i p, c ← getitem fac i; mret (alter_column (λ x, F64.div x c) i p))
       pd.

(** Line 163. *)
Definition nan_to_num (m : ndarray2) : ndarray2 :=
  Mat (ncols m) (map (map F64.nan_to_num) (rows m)).

Definition normalizer (a : args) (pd : ndarray2) : M norm_vars :=
  let mean := over_columns (np_mean W) pd in
  demeaned ← demean_columns a mean pd;
  fac ← normalization_factor a mean demeaned;
  divided ← divide_columns fac demeaned;
  mret (NormVars (nan_to_num divided) mean fac).

(** ** Everything before the decomposition *)

Record selected_vars := SelectedVars {
  s_mask : mask_vars;
  s_stack : stack_vars;
  s_masked : masked_vars
}.

(** Lines 45-131.  Once [rs_datafile] has been read, the loop over the
    data files has run a turn and its variables are bound. *)
Definition selection (a : args) : M selected_vars :=
  mv ← mask_selector a;
  st ← volume_stacker a (numspatiallocs mv);
  mk ← masking_arrays a mv st;
  sv ← load_local "datafile_hdr" st;
  mret (SelectedVars mv sv mk).

Record front_vars := FrontVars {
  f_mask : mask_vars;
  f_stack : stack_vars;
  f_masked : masked_vars;
  f_norm : norm_vars
}.

Definition front (a : args) : M front_vars :=
  sel ← selection a;
  nv ← normalizer a (procdata (s_masked sel));
  mret (FrontVars (s_mask sel) (s_stack sel) (s_masked sel) nv).

(** ** Reassembler: lines 226-231 and 246-248 *)

Definition reassemble (nsl : nat) (locs : list nat) (src : ndarray2)
    (x y s : nat) : M ndarray4 :=
  let out := zeros nsl (ncols src) in
  scattered ← scatter_rows out locs src;
  reshape4 scattered x y s (ncols src).

(** ** Decomposition Engine: lines 165-248 *)

(** The variables the [return] statement reads. *)
Record locals := Locals {
  outputcomponents : option ndarray4;
  outputcoefficients : option ndarray2;
  outinvtrans : option ndarray4;
  exp_var_pct : option (list float);
  final_hdr : header
}.

(** Lines 166-180. *)
Definition ica_branch (a : args) (fv : front_vars) : M locals :=
  print [PyStr "performing ica decomposition"];;
  match icacomponents a with
  | None => print [PyStr "will return all significant components"]
  | Some k => print [PyStr "will return"; PyInt k; PyStr "components"]
  end;;
  let n_components := from_option PyInt PyNone (icacomponents a) in
  emit (NewEstimator "FastICA" n_components);;
  thefit ← call_fit (FastICA W n_components) (transpose (normdata (f_norm fv)));
  comps ← lift (components_ W thefit);
  match icacomponents a with
  | None =>
      let thecomponents := transpose comps in
      print [PyInt (Z.of_nat (ncols thecomponents)); PyStr "components found"]
  | Some k =>
      let thecomponents := transpose (slice_rows comps k) in
      print [PyStr "returning first"; PyInt (Z.of_nat (ncols thecomponents));
             PyStr "components found"]
  end;;
  mret (Locals None None None None (datafile_hdr (f_stack fv))).

(** Lines 182-193: the persisted model, or a diagnostic and the end of
    the process. *)
Definition load_model (root : string) : M Model :=
  let modelfilename := root +:+ "_pca.joblib" in
  print [PyStr "reading PCA from"; PyStr modelfilename];;
  emit (JoblibLoad modelfilename);;
  match joblib_load W modelfilename with
  | inr thepca => mret thepca
  | inl ex =>
      let message :=
        "An exception of type " +:+ exc_type ex
        +:+ " occurred when trying to open " +:+ modelfilename
        +:+ ". Arguments:" +:+ newline +:+ exc_args ex in
      print [PyStr message];;
      sys_exit
  end.

(** Lines 195-211: a fresh model, saved before it is fitted.  The
    result carries the rebound [pcacomponents]. *)
Definition fresh_model (a : args) : M (Model * pyval) :=
  print [PyStr "performing pca decomposition"];;
  above ← py_float_lt F64.zero (pcacomponents a);
  below ← (if above then py_lt_float (pcacomponents a) F64.one else mret false);
  pc ← (if above && below then
          pct ← py_mul_float (pcacomponents a) F64.hundred;
          print [PyStr "will return the components accounting for"; pct;
                 PyStr "% of the variance"];;
          mret (pcacomponents a)
        else
          negative ← py_lt_float (pcacomponents a) F64.zero;
          if negative : bool then
            print [PyStr "will return"; PyStr "mle"; PyStr "components"];;
            mret (PyStr "mle")
          else mret (pcacomponents a));
  thepca ← (if decide (decomptype a = "pca")
            then emit (NewEstimator "PCA" pc);; mret (PCA W pc)
            else emit (NewEstimator "SparsePCA" pc);; mret (SparsePCA W pc));
  emit (JoblibDump (outputroot a +:+ "_pca.joblib"));;
  lift (joblib_dump W thepca (outputroot a +:+ "_pca.joblib"));;
  mret (thepca, pc).

Definition get_model (a : args) : M (Model * pyval) :=
  match trainedmodelroot a with
  | Some root => thepca ← load_model root; mret (thepca, pcacomponents a)
  | None => fresh_model a
  end.

(** Lines 217-221: which components are kept. *)
Definition retention (pc : pyval) (thefit : Model) : M ndarray2 :=
  fractional ← py_lt_float pc F64.one;
  if fractional : bool then
    comps ← lift (components_ W thefit);
    let thecomponents := transpose comps in
    print [PyStr "returning"; PyInt (Z.of_nat (ncols thecomponents));
           PyStr "components"];;
    mret thecomponents
  else
    comps ← lift (components_ W thefit);
    kept ← py_slice_rows comps pc;
    mret (transpose kept).

(** Lines 239-241: [theinvtrans[:, i] = thevar[i] * theinvtrans[:, i]
    + themean[i]].  The function never assigns [thevar], so the name is
    looked up among the globals of the module. *)
Definition denormalize_column (mean : list float) (i : nat) (inv : ndarray2)
    : M ndarray2 :=
  thevar ← load_global "thevar";
  scale ← subscript_global thevar i;
  (if i <? ncols inv then mret tt else raise (IndexError "index out of bounds"));;
  shift ← getitem mean i;
  mret (alter_column (λ x, F64.add (F64.mul scale x) shift) i inv).

Definition denormalize (total : nat) (mean : list float) (inv : ndarray2)
    : M ndarray2 :=
  mfor (seq 0 total) (denormalize_column mean) inv.

(** Line 245: [theheader["dim"][4] = n], on the header object that
    [datafile_hdr] names too. *)
Definition set_dim4 (h : header) (n : nat) : M header :=
  if 4 <? length (hdr_dim h) then mret (Header (<[4 := n]> (hdr_dim h)) (hdr_rest h))
  else raise (IndexError "index out of bounds").

(** Lines 182-248.  [thepca.fit] fits the estimator in place and returns
    it, so [thefit] and [thepca] are one object. *)
Definition pca_branch (a : args) (fv : front_vars) : M locals :=
  got ← get_model a;
  let thepca := got.1 in
  let pc := got.2 in
  let data := transpose (normdata (f_norm fv)) in
  thefit ← call_fit thepca data;
  thetransform ← lift (transform W thefit data);
  inv ← lift (inverse_transform W thefit thetransform);
  let theinvtrans := transpose inv in
  thecomponents ← retention pc thefit;
  ratio ← lift (explained_variance_ratio_ W thefit);
  let pct := map (F64.mul F64.hundred) ratio in
  comps ← reassemble (numspatiallocs (f_mask fv)) (proclocs (f_masked fv))
            thecomponents
            (xsize (f_stack fv)) (ysize (f_stack fv)) (numslices (f_stack fv));
  let coefficients := transpose thetransform in
  denormed ← denormalize (totaltimepoints (f_stack fv)) (themean (f_norm fv))
               theinvtrans;
  print [PyStr "writing fit data"];;
  theheader ← set_dim4 (datafile_hdr (f_stack fv)) (ncols denormed);
  recon ← reassemble (numspatiallocs (f_mask fv)) (proclocs (f_masked fv))
            denormed
            (xsize (f_stack fv)) (ysize (f_stack fv)) (numslices (f_stack fv));
  mret (Locals (Some comps) (Some coefficients) (Some recon) (Some pct) theheader).

Definition decomposition (a : args) (fv : front_vars) : M locals :=
  if decide (decomptype a = "ica") then ica_branch a fv else pca_branch a fv.

(** ** The [return] statement: lines 249-257 *)

Record workflow_result := WorkflowResult {
  res_components : ndarray4;
  res_coefficients : ndarray2;
  res_invtrans : ndarray4;
  res_exp_var_pct : list float;
  res_hdr : header;
  res_dims : list nat;
  res_sizes : list float
}.

Definition return_statement (fv : front_vars) (l : locals) : M workflow_result :=
  c ← load_local "outputcomponents" (outputcomponents l);
  k ← load_local "outputcoefficients" (outputcoefficients l);
  r ← load_local "outinvtrans" (outinvtrans l);
  p ← load_local "exp_var_pct" (exp_var_pct l);
  mret (WorkflowResult c k r p (final_hdr l)
          (datafiledims (f_stack fv)) (datafilesizes (f_stack fv))).

Definition niftidecomp_workflow (a : args) : M workflow_result :=
  fv ← front a;
  l ← decomposition a fv;
  return_statement fv l.

End Workflow.

(** * A small world to run the workflow in *)

Module Toy.

(** An estimator that keeps its training data as its components and
    projects by the identity. *)
Record estimator := Estimator {
  class_name : string;
  n_components : pyval;
  training : option ndarray2
}.

Definition fold_sum (l : list float) : float :=
  match l with
  | [] => F64.zero
  | x :: l' => foldl F64.add x l'
  end.

Definition mean (l : list float) : float :=
  F64.div (fold_sum l) (F64.of_nat (length l)).

Definition var (l : list float) : float :=
  let m := mean l in
  mean (map (λ x, F64.mul (F64.sub x m) (F64.sub x m)) l).

Definition std (l : list float) : float := SFsqrt F64.prec F64.emax (var l).

(** NaN wins; otherwise the larger (smaller) element. *)
Definition maximum (l : list float) : outcome float :=
  match l with
  | [] => Raise (ValueError
            "zero-size array to reduction operation maximum which has no identity")
  | x :: l' =>
      Ret (foldl (λ acc y, if F64.is_nan acc then acc
                           else if F64.is_nan y || F64.ltb acc y then y else acc)
                 x l')
  end.

Definition minimum (l : list float) : outcome float :=
  match l with
  | [] => Raise (ValueError
            "zero-size array to reduction operation minimum which has no identity")
  | x :: l' =>
      Ret (foldl (λ acc y, if F64.is_nan acc then acc
                           else if F64.is_nan y || F64.ltb y acc then y else acc)
                 x l')
  end.

Fixpoint insert_sorted (x : float) (l : list float) : list float :=
  match l with
  | [] => [x]
  | y :: l' => if SFleb x y then x :: l else y :: insert_sorted x l'
  end.

Definition median (l : list float) : float :=
  let sorted := foldr insert_sorted [] l in
  let n := length l in
  if Nat.even n then
    F64.div (F64.add (sorted !!! (n / 2 - 1)) (sorted !!! (n / 2))) (F64.of_Z 2)
  else sorted !!! (n / 2).

(** [statsmodels.robust.mad]: the median absolute deviation from the
    median, over the normal-consistency constant 0.6744897501960817. *)
Definition scaled_mad (l : list float) : float :=
  let c := median l in
  F64.div (median (map (λ x, SFabs (F64.sub x c)) l))
          (S754_finite false 6075263575296585 (-53)).

Definition f (z : Z) : float := F64.of_Z z.

Definition dims3 : list nat := [3; 2; 2; 1; 1; 1; 1; 1].
Definition dims4 : list nat := [4; 2; 2; 1; 2; 1; 1; 1].
Definition pair_dims3 : list nat := [3; 2; 1; 1; 1; 1; 1; 1].
Definition pair_dims4 : list nat := [4; 2; 1; 1; 1; 1; 1; 1].
Definition sizes : list float := [f 1; f 1; f 1; f 1; f 2; f 1; f 1; f 1].

(** The files of the toy world: a 2x2x1 mask selecting voxels 0, 1 and
    3, a mask with two time points, and a 2x2x1x2 series; then a mask of
    two voxels and two one-frame series over it, one holding 1 and -1,
    the other a NaN. *)
Definition files (name : string) : option nifti :=
  if decide (name = "mask") then
    Some (Nifti (NdArray [2; 2; 1] [f 1; f 1; f 0; f 1])
            (Header dims3 "mask") dims3 sizes)
  else if decide (name = "mask4d") then
    Some (Nifti (NdArray [2; 2; 1; 2] (replicate 8 (f 1)))
            (Header dims4 "mask4d") dims4 sizes)
  else if decide (name = "bold") then
    Some (Nifti (NdArray [2; 2; 1; 2] [f 1; f 2; f 3; f 5; f 0; f 0; f 4; f 8])
            (Header dims4 "bold") dims4 sizes)
  else if decide (name = "pair_mask") then
    Some (Nifti (NdArray [2; 1; 1] [f 1; f 1])
            (Header pair_dims3 "pair_mask") pair_dims3 sizes)
  else if decide (name = "pair") then
    Some (Nifti (NdArray [2; 1; 1; 1] [f 1; f (-1)])
            (Header pair_dims4 "pair") pair_dims4 sizes)
  else if decide (name = "pair_nan") then
    Some (Nifti (NdArray [2; 1; 1; 1] [F64.nan; f 1])
            (Header pair_dims4 "pair_nan") pair_dims4 sizes)
  else None.

Definition world : World estimator := {|
  readfromnifti name :=
    match name with
    | None => Raise (TypeError "expected str, bytes or os.PathLike object, not NoneType")
    | Some path =>
        match files path with
        | Some nim => Ret nim
        | None => Raise SystemExit
        end
    end;
  parseniftidims d := (d !!! 1, d !!! 2, d !!! 3, d !!! 4);
  parseniftisizes s := (s !!! 1, s !!! 2, s !!! 3, s !!! 4);
  checkspacedimmatch d1 d2 :=
    bool_decide (take 3 (drop 1 d1) = take 3 (drop 1 d2));
  checktimematch d1 d2 := bool_decide (d1 !! 4 = d2 !! 4);
  ssmooth _ _ _ _ frame := frame;
  np_mean := mean;
  np_std := std;
  np_var := var;
  np_max := maximum;
  np_min := minimum;
  mad := scaled_mad;
  FastICA := λ k, Estimator "FastICA" k None;
  PCA := λ k, Estimator "PCA" k None;
  SparsePCA := λ k, Estimator "SparsePCA" k None;
  joblib_load path :=
    if decide (path = "trained_pca.joblib") then inr (Estimator "PCA" (PyFloat F64.one) None)
    else inl (PyExc "FileNotFoundError" "(2, 'No such file or directory')");
  joblib_dump _ _ := Ret tt;
  fit e data := Ret (Estimator (class_name e) (n_components e) (Some data));
  transform _ data := Ret data;
  inverse_transform _ coeffs := Ret coeffs;
  components_ e :=
    match training e with
    | Some data => Ret data
    | None => Raise (Foreign (PyExc "AttributeError" "('components_',)"))
    end;
  explained_variance_ratio_ e :=
    match training e with
    | Some data => Ret (replicate (nrows data) (F64.div F64.one (F64.of_nat (nrows data))))
    | None => Raise (Foreign (PyExc "AttributeError" "('explained_variance_ratio_',)"))
    end
|}.

Definition run : args := {|
  datafilelist := ["bold"];
  outputroot := "out";
  datamaskname := Some "mask";
  decomptype := "pca";
  pcacomponents := PyFloat F64.half;
  icacomponents := None;
  trainedmodelroot := None;
  normmethod := "None";
  demean := true;
  theprefilter := None;
  sigma := F64.zero;
  maskthresh := F64.quarter
|}.

(** The same run with one argument changed. *)
Definition with_mask (name : option string) : args :=
  Args ["bold"] "out" name "pca" (pcacomponents run) None None "None" true None
    F64.zero (maskthresh run).

Definition with_decomptype (kind : string) : args :=
  Args ["bold"] "out" (Some "mask") kind (pcacomponents run) None None "None"
    true None F64.zero (maskthresh run).

Definition with_pcacomponents (v : pyval) : args :=
  Args ["bold"] "out" (Some "mask") "pca" v None None "None" true None
    F64.zero (maskthresh run).

Definition with_trainedmodelroot (root : string) : args :=
  Args ["bold"] "out" (Some "mask") "pca" (pcacomponents run) None (Some root)
    "None" true None F64.zero (maskthresh run).

Definition with_normmethod (method : string) (dm : bool) : args :=
  Args ["bold"] "out" (Some "mask") "pca" (pcacomponents run) None None method
    dm None F64.zero (maskthresh run).

(** [procdata] of [run]: the three masked voxels over two time points. *)
Definition run_procdata : ndarray2 :=
  Mat 2 [[f 1; f 2]; [f 3; f 5]; [f 4; f 8]].

(** The run over the files [names]. *)
Definition with_files (names : list string) : args :=
  Args names "out" (Some "mask") "pca" (pcacomponents run) None None "None" true
    None F64.zero (maskthresh run).


(** A run over one of the two-voxel series. *)
Definition pair_run (series method : string) (dm : bool) : args :=
  Args [series] "out" (Some "pair_mask") "pca" (pcacomponents run) None None
    method dm None F64.zero (maskthresh run).

End Toy.

(** * Vocabulary of the statements *)

(** [s] occurs in [t]. *)
Definition occurs_in (s t : string) : Prop :=
  ∃ before after, t = before +:+ s +:+ after.

(** [v < 0.0] holds: the values the fresh-fit path rebinds to ["mle"]. *)
Definition is_negative (v : pyval) : bool :=
  match v with
  | PyFloat f => F64.ltb f F64.zero
  | PyInt z => (z <? 0)%Z
  | _ => false
  end.

(** What the run has written up to the read of the mask. *)
Definition mask_read_trace (a : args) : list event :=
  [Print [PyStr ("Will perform " +:+ decomptype a
                 +:+ " analysis along the spatial dimension")];
   Print [PyStr "reading in mask array"];
   ReadNifti (datamaskname a)].

(** What a loop over the columns [lo <= j < hi] leaves when each turn
    rewrites its own column with [h j]. *)
Definition map_columns (h : nat → float → float) (lo hi : nat) (m : ndarray2)
    : ndarray2 :=
  Mat (ncols m)
    (map (imap (λ j x, if (lo <=? j) && (j <? hi) then h j x else x)) (rows m)).

(** Column [j] of [procdata] as the normalization factor sees it: after
    the demeaning of lines 135-138, when [demean] is set. *)
Definition demeaned_column {Model} (W : World Model) (a : args) (pd : ndarray2)
    (j : nat) : list float :=
  if demean a
  then map (λ x, F64.sub x (np_mean W (column pd j))) (column pd j)
  else column pd j.

(** [procdata] after lines 135-138, and what those lines print. *)
Definition demeaned {Model} (W : World Model) (a : args) (pd : ndarray2) : ndarray2 :=
  if demean a
  then map_columns (λ j x, F64.sub x (over_columns (np_mean W) pd !!! j))
         0 (ncols pd) pd
  else pd.

Definition demean_trace (a : args) : list event :=
  if demean a then [Print [PyStr "demeaning array"]] else [].

Definition legal_normmethods : list string :=
  ["None"; "percent"; "stddev"; "z"; "p2p"; "mad"].

(** The events that touch a persisted model file. *)
Definition is_joblib_event (ev : event) : bool :=
  match ev with
  | JoblibLoad _ | JoblibDump _ => true
  | _ => false
  end.

(** Row [v] of the Voxel-Time Matrix once the buffers [bufs] of the
    first files, [t] time points each, have been placed: their runs for
    voxel [v] one after the other, then zeros up to [total] columns. *)
Definition stacked_row (t total : nat) (bufs : list (list float)) (v : nat)
    : list float :=
  flat_map (λ b, take t (drop (v * t) b)) bufs
  ++ replicate (total - t * length bufs) F64.zero.



(** What the first file fixes (lines 83-87), for [numfiles] files. *)
Definition first_state {Model} (W : World Model) (nsl numfiles : nat) (nim : nifti)
    : stack_vars :=
  let d := parseniftidims W (nim_dims nim) in
  let z := parseniftisizes W (nim_sizes nim) in
  StackVars d.1.1.1 d.1.1.2 d.1.2 d.2 z.1.1.1 z.1.1.2 z.1.2 z.2
    (d.2 * numfiles) (nim_dims nim) (zeros nsl (d.2 * numfiles))
    (nim_hdr nim) (nim_dims nim) (nim_sizes nim).




(** Frame [i] of an array of shape [(x, y, s, t)], and the array once
    its first [lo] frames have been replaced by [sm] of them. *)
Definition frame4 (x y s t : nat) (data : ndarray) (i : nat) : ndarray :=
  NdArray [x; y; s] (map (λ v, buf data !!! (v * t + i)) (seq 0 (x * y * s))).

Definition smoothed_upto (sm : ndarray → ndarray) (x y s t lo : nat)
    (data : ndarray) : ndarray :=
  NdArray (shape data)
    (imap (λ k old, if k mod t <? lo
                    then buf (sm (frame4 x y s t data (k mod t))) !!! (k / t)
                    else old)
          (buf data)).

(** The toy world with two more files: ["row"], four voxels in a row
    over two time points, as many voxels as the mask ["mask"] selects
    from, in another arrangement; and ["still"], two voxels without any
    time point. *)
Definition still_dims4 : list nat := [4; 2; 1; 1; 0; 1; 1; 1].

Definition still_file : nifti :=
  Nifti (NdArray [2; 1; 1; 0] []) (Header still_dims4 "still") still_dims4
    Toy.sizes.

Definition row_dims4 : list nat := [4; 4; 1; 1; 2; 1; 1; 1].

Definition row_file : nifti :=
  Nifti (NdArray [4; 1; 1; 2]
           [Toy.f 1; Toy.f 2; Toy.f 3; Toy.f 5; Toy.f 0; Toy.f 0; Toy.f 4; Toy.f 8])
    (Header row_dims4 "row") row_dims4 Toy.sizes.

Definition wide_world : World Toy.estimator := {|
  readfromnifti name :=
    if decide (name = Some "row") then Ret row_file
    else if decide (name = Some "still") then Ret still_file
    else readfromnifti Toy.world name;
  parseniftidims := parseniftidims Toy.world;
  parseniftisizes := parseniftisizes Toy.world;
  checkspacedimmatch := checkspacedimmatch Toy.world;
  checktimematch := checktimematch Toy.world;
  ssmooth := ssmooth Toy.world;
  np_mean := np_mean Toy.world;
  np_std := np_std Toy.world;
  np_var := np_var Toy.world;
  np_max := np_max Toy.world;
  np_min := np_min Toy.world;
  mad := mad Toy.world;
  FastICA := FastICA Toy.world;
  PCA := PCA Toy.world;
  SparsePCA := SparsePCA Toy.world;
  joblib_load := joblib_load Toy.world;
  joblib_dump := joblib_dump Toy.world;
  fit := fit Toy.world;
  transform := transform Toy.world;
  inverse_transform := inverse_transform Toy.world;
  components_ := components_ Toy.world;
  explained_variance_ratio_ := explained_variance_ratio_ Toy.world
|}.

(** * Laws of the execution monad *)

Section MonadLaws.

Context {A B : Type}.
Implicit Types (m : M A) (k : A → M B).

Lemma bind_Ret m k t a :
  m = (t, Ret a) → m ≫= k = (t ++ trace (k a), result (k a)).
Proof.
  intros ->. unfold mbind, M_bind, bind, trace, result.
  by destruct (k a).
Qed.

Lemma bind_Raise m k t e : m = (t, Raise e) → m ≫= k = (t, Raise e).
Proof. by intros ->. Qed.

Lemma mret_bind (a : A) k : mret a ≫= k = k a.
Proof.
  unfold mret, M_ret, ret, mbind, M_bind, bind. by destruct (k a).
Qed.

Lemma bind_inv_Ret m k t b :
  m ≫= k = (t, Ret b) →
  ∃ t1 a t2, m = (t1, Ret a) ∧ k a = (t2, Ret b) ∧ t = t1 ++ t2.
Proof.
  destruct m as [t1 [a | e]]; unfold mbind, M_bind, bind.
  - destruct (k a) as [t2 r] eqn:Hk. intros [= <- ->].
    by exists t1, a, t2.
  - discriminate.
Qed.

Lemma returns_bind m k :
  returns (m ≫= k) → ∃ t a, m = (t, Ret a) ∧ returns (k a).
Proof.
  intros [b Hb]. destruct (m ≫= k) as [t r] eqn:Hm.
  simpl in Hb. subst r.
  apply bind_inv_Ret in Hm as (t1 & a & t2 & -> & Hk & _).
  exists t1, a. split; [done |]. exists b. by rewrite Hk.
Qed.

Lemma raises_bind m k e :
  result m = Raise e → result (m ≫= k) = Raise e.
Proof. destruct m as [t r]. simpl. by intros ->. Qed.

End MonadLaws.

Lemma emit_bind {B} (ev : event) (k : unit → M B) :
  emit ev ≫= k = (ev :: trace (k tt), result (k tt)).
Proof. by rewrite (bind_Ret _ _ [ev] tt). Qed.

Lemma print_bind {B} (items : list pyval) (k : unit → M B) :
  print items ≫= k = (Print items :: trace (k tt), result (k tt)).
Proof. apply emit_bind. Qed.

Lemma lift_Ret_bind {A B} (o : outcome A) (a : A) (k : A → M B) :
  o = Ret a → lift o ≫= k = k a.
Proof. intros ->. apply (mret_bind a k). Qed.

Lemma lift_Raise_bind {A B} (o : outcome A) (e : exn) (k : A → M B) :
  o = Raise e → lift o ≫= k = ([], Raise e).
Proof. by intros ->. Qed.

Lemma not_returns_Raise {A} (t : list event) (e : exn) :
  ¬ returns ((t, Raise e) : M A).
Proof. by intros [a Ha]. Qed.

Lemma pair_trace_result {A} (m : M A) : (trace m, result m) = m.
Proof. by destruct m. Qed.

(** * Facts about arrays *)

Lemma elem_of_where_from (bs : list bool) (s j : nat) :
  j ∈ where_from s bs ↔ ∃ k, j = s + k ∧ bs !! k = Some true.
Proof.
  revert s. induction bs as [| b bs IH]; intros s; simpl.
  - split; [by intros ?%elem_of_nil | by intros (k & _ & ?)].
  - rewrite elem_of_app, IH. split.
    + intros [Hj | (k & -> & Hk)].
      * destruct b; [| by apply elem_of_nil in Hj].
        apply list_elem_of_singleton in Hj as ->. exists 0. split; [lia | done].
      * exists (S k). split; [lia | done].
    + intros ([| k] & -> & Hk); simpl in Hk.
      * injection Hk as ->. left. rewrite Nat.add_0_r. apply list_elem_of_singleton. done.
      * right. exists k. split; [lia | done].
Qed.

Lemma elem_of_np_where (bs : list bool) (j : nat) :
  j ∈ np_where bs ↔ bs !! j = Some true.
Proof.
  unfold np_where. rewrite elem_of_where_from. split.
  - by intros (k & -> & Hk).
  - intros Hj. by exists j.
Qed.

(** * Mask Selector *)

Section MaskSelector.

Context {Model : Type} (W : World Model).

Lemma mask_selector_not_3d (a : args) (nim : nifti) (x y s t : nat) :
  readfromnifti W (datamaskname a) = Ret nim →
  parseniftidims W (nim_dims nim) = (x, y, s, t) →
  t ≠ 1 →
  mask_selector W a =
    ([Print [PyStr ("Will perform " +:+ decomptype a
                    +:+ " analysis along the spatial dimension")];
      Print [PyStr "reading in mask array"];
      ReadNifti (datamaskname a);
      Print [PyStr "mask must have only 3 dimensions"]],
     Raise SystemExit).
Proof.
  intros Hread Hdims Ht. unfold mask_selector, call_readfromnifti.
  rewrite !print_bind. rewrite emit_bind. simpl.
  rewrite Hread. simpl. rewrite Hdims.
  apply Nat.eqb_neq in Ht. rewrite Ht. done.
Qed.

Lemma mask_selector_3d (a : args) (nim : nifti) (x y s : nat) :
  readfromnifti W (datamaskname a) = Ret nim →
  parseniftidims W (nim_dims nim) = (x, y, s, 1) →
  length (buf (nim_data nim)) = x * y * s →
  mask_selector W a =
    ([Print [PyStr ("Will perform " +:+ decomptype a
                    +:+ " analysis along the spatial dimension")];
      Print [PyStr "reading in mask array"];
      ReadNifti (datamaskname a)],
     Ret (MaskVars (nim_dims nim) x y s (x * y * s)
            (np_where (map (λ v, F64.gtb v (maskthresh a)) (buf (nim_data nim)))))).
Proof.
  intros Hread Hdims Hlen. unfold mask_selector, call_readfromnifti.
  rewrite !print_bind. rewrite emit_bind. simpl.
  rewrite Hread. simpl. rewrite Hdims. simpl.
  unfold reshape1. rewrite Hlen, Nat.eqb_refl. done.
Qed.

End MaskSelector.

Section MaskSelectorClaims.

Context {Model : Type} (W : World Model).

Lemma workflow_stops_with_mask_selector (a : args) (t : list event) (e : exn) :
  mask_selector W a = (t, Raise e) → niftidecomp_workflow W a = (t, Raise e).
Proof.
  intros H. unfold niftidecomp_workflow, front, selection.
  by rewrite (bind_Raise (mask_selector W a) _ t e H).
Qed.

Lemma masking_arrays_keeps_mask_locs (a : args) (mv : mask_vars)
    (st : option stack_vars) (t : list event) (mk : masked_vars) (name : string) :
  datamaskname a = Some name →
  masking_arrays W a mv st = (t, Ret mk) →
  proclocs mk = mask_proclocs mv.
Proof.
  intros Hname. unfold masking_arrays. rewrite Hname. intros H.
  apply bind_inv_Ret in H as (? & ? & ? & _ & H & _).
  apply bind_inv_Ret in H as (? & ? & ? & _ & H & _).
  rewrite mret_bind in H.
  apply bind_inv_Ret in H as (? & ? & ? & _ & H & _).
  apply bind_inv_Ret in H as (? & ? & ? & _ & H & _).
  rewrite !print_bind in H. by injection H as _ <-.
Qed.

(** C2.  A mask whose time-point count is not 1 ends the run with the
    diagnostic "mask must have only 3 dimensions" and [SystemExit]; the
    only file read by then is the mask.  For a mask with one time point
    the Mask Selector returns as [proclocs] exactly the flattened indices
    whose mask value is strictly greater than [maskthresh], and the
    voxel selection keeps them when a mask name was given. *)
Theorem C2_mask_dimensionality (a : args) (nim : nifti) (x y s t : nat) :
  readfromnifti W (datamaskname a) = Ret nim →
  parseniftidims W (nim_dims nim) = (x, y, s, t) →
  (t ≠ 1 →
   niftidecomp_workflow W a =
     ([Print [PyStr ("Will perform " +:+ decomptype a
                     +:+ " analysis along the spatial dimension")];
       Print [PyStr "reading in mask array"];
       ReadNifti (datamaskname a);
       Print [PyStr "mask must have only 3 dimensions"]],
      Raise SystemExit))
  ∧ (t = 1 → length (buf (nim_data nim)) = x * y * s →
     ∃ mv,
       mask_selector W a =
         ([Print [PyStr ("Will perform " +:+ decomptype a
                         +:+ " analysis along the spatial dimension")];
           Print [PyStr "reading in mask array"];
           ReadNifti (datamaskname a)],
          Ret mv)
       ∧ (∀ i, i ∈ mask_proclocs mv ↔
               ∃ v, buf (nim_data nim) !! i = Some v
                    ∧ F64.gtb v (maskthresh a) = true)
       ∧ (∀ name st tr mk,
            datamaskname a = Some name →
            masking_arrays W a mv st = (tr, Ret mk) →
            proclocs mk = mask_proclocs mv)).
Proof.
  intros Hread Hdims. split.
  - intros Ht. apply workflow_stops_with_mask_selector.
    by apply (mask_selector_not_3d W a nim x y s t).
  - intros -> Hlen. eexists. split; [| split].
    + by apply (mask_selector_3d W a nim x y s).
    + intros i. simpl. rewrite elem_of_np_where, list_lookup_fmap.
      destruct (buf (nim_data nim) !! i) as [v |]; simpl.
      * split; [intros [= H]; by exists v | by intros (? & [= <-] & ->)].
      * split; [done | by intros (? & ? & _)].
    + intros name st tr mk Hname Hmk.
      by apply (masking_arrays_keeps_mask_locs a _ st tr mk name).
Qed.

End MaskSelectorClaims.

Lemma C2_mask_dimensionality_witness :
  niftidecomp_workflow Toy.world
    (Toy.with_mask (Some "mask4d"))
  = ([Print [PyStr "Will perform pca analysis along the spatial dimension"];
      Print [PyStr "reading in mask array"];
      ReadNifti (Some "mask4d");
      Print [PyStr "mask must have only 3 dimensions"]],
     Raise SystemExit)
  ∧ ∃ mv, mask_selector Toy.world Toy.run
          = ([Print [PyStr "Will perform pca analysis along the spatial dimension"];
              Print [PyStr "reading in mask array"];
              ReadNifti (Some "mask")],
             Ret mv)
          ∧ (∀ i, i ∈ mask_proclocs mv ↔
                  ∃ v, [Toy.f 1; Toy.f 1; Toy.f 0; Toy.f 1] !! i = Some v
                       ∧ F64.gtb v (maskthresh Toy.run) = true).
Proof.
  split.
  - refine (proj1 (C2_mask_dimensionality Toy.world
                     (Toy.with_mask (Some "mask4d"))
                     _ 2 2 1 2 _ _) _).
    + vm_compute. reflexivity.
    + vm_compute. reflexivity.
    + lia.
  - destruct (proj2 (C2_mask_dimensionality Toy.world Toy.run
                       _ 2 2 1 1 eq_refl eq_refl) eq_refl eq_refl)
      as (mv & Hsel & Hlocs & _).
    exists mv. split; [exact Hsel | exact Hlocs].
Defined.

(** * The absent mask *)

Section AbsentMask.

Context {Model : Type} (W : World Model).

Lemma mmap_inv_Ret {A B} (f : A → M B) (l : list A) (t : list event) (ys : list B) :
  mmap f l = (t, Ret ys) →
  Forall2 (λ x y, ∃ t', f x = (t', Ret y)) l ys.
Proof.
  revert t ys. induction l as [| x l IH]; intros t ys; simpl.
  - intros [= _ <-]. constructor.
  - intros H.
    apply bind_inv_Ret in H as (t1 & y & t2 & Hx & H & _).
    apply bind_inv_Ret in H as (t3 & ys' & t4 & Hl & H & _).
    injection H as _ <-. constructor; [by exists t1 | by eapply IH].
Qed.

(** Lines 122-127, the selection the workflow holds for a run without
    a mask: the voxels whose maximum over time exceeds their minimum. *)
Lemma nonzero_range_locs_spec (nsl : nat) (rs : ndarray2) (t : list event)
    (locs : list nat) :
  nonzero_range_locs W nsl rs = (t, Ret locs) →
  ∀ i, i ∈ locs ↔
       ∃ r mx mn, rows rs !! i = Some r ∧ np_max W r = Ret mx
                  ∧ np_min W r = Ret mn
                  ∧ F64.gtb (F64.sub mx mn) F64.zero = true.
Proof.
  unfold nonzero_range_locs. intros H i.
  apply bind_inv_Ret in H as (t1 & maxes & t2 & Hmax & H & _).
  apply bind_inv_Ret in H as (t3 & mins & t4 & Hmin & H & _).
  destruct (_ =? nsl); [| discriminate]. injection H as _ <-.
  apply mmap_inv_Ret in Hmax, Hmin.
  rewrite elem_of_np_where, list_lookup_fmap, lookup_zip_with.
  split.
  - intros Hi.
    destruct (maxes !! i) as [mx |] eqn:Hmx; [| done].
    destruct (mins !! i) as [mn |] eqn:Hmn; [| done].
    simpl in Hi. injection Hi as Hi.
    destruct (Forall2_lookup_r _ _ _ _ _ Hmax Hmx) as (r & Hr & t' & Hfr).
    destruct (Forall2_lookup_l _ _ _ _ _ Hmin Hr) as (mn' & Hmn' & t'' & Hfr').
    rewrite Hmn in Hmn'. injection Hmn' as <-.
    exists r, mx, mn. repeat split; try done.
    + unfold lift in Hfr. by injection Hfr as _ ->.
    + unfold lift in Hfr'. by injection Hfr' as _ ->.
  - intros (r & mx & mn & Hr & Hmx & Hmn & Hgt).
    destruct (Forall2_lookup_l _ _ _ _ _ Hmax Hr) as (mx' & -> & t' & Hfr).
    destruct (Forall2_lookup_l _ _ _ _ _ Hmin Hr) as (mn' & -> & t'' & Hfr').
    unfold lift in Hfr, Hfr'. rewrite Hmx in Hfr. rewrite Hmn in Hfr'.
    injection Hfr as _ <-. injection Hfr' as _ <-. simpl. by rewrite Hgt.
Qed.

(** C3.  The mask is read before anything else, whether or not a mask
    name was given: with [datamaskname = None] the reader is called on
    [None], and when it raises the run ends there, before any data file
    is read and before the nonzero-range selection of lines 122-127. *)
Theorem C3_absent_mask_is_read (a : args) (e : exn) :
  datamaskname a = None →
  readfromnifti W None = Raise e →
  niftidecomp_workflow W a = (mask_read_trace a, Raise e).
Proof.
  intros Hname Hread. apply workflow_stops_with_mask_selector.
  unfold mask_selector, call_readfromnifti, mask_read_trace.
  rewrite !print_bind, emit_bind. simpl. by rewrite Hname, Hread.
Qed.

End AbsentMask.

Lemma C3_absent_mask_is_read_witness :
  niftidecomp_workflow Toy.world (default_args ["bold"] "out")
  = ([Print [PyStr "Will perform pca analysis along the spatial dimension"];
      Print [PyStr "reading in mask array"];
      ReadNifti None],
     Raise (TypeError "expected str, bytes or os.PathLike object, not NoneType")).
Proof.
  apply (C3_absent_mask_is_read Toy.world (default_args ["bold"] "out"));
    reflexivity.
Defined.

(** * Decomposition Engine *)

Lemma append_assoc (s1 s2 s3 : string) : (s1 +:+ s2) +:+ s3 = s1 +:+ s2 +:+ s3.
Proof.
  induction s1 as [| c s1 IH]; [done |].
  change (String c ((s1 +:+ s2) +:+ s3) = String c (s1 +:+ s2 +:+ s3)).
  by rewrite IH.
Qed.

Lemma append_empty_r (s : string) : s +:+ "" = s.
Proof.
  induction s as [| c s IH]; [done |].
  change (String c (s +:+ "") = String c s). by rewrite IH.
Qed.

Lemma occurs_in_here (s after : string) : occurs_in s (s +:+ after).
Proof. by exists "", after. Qed.

Lemma occurs_in_later (s before t : string) :
  occurs_in s t → occurs_in s (before +:+ t).
Proof.
  intros (b & a & ->). exists (before +:+ b), a. by rewrite append_assoc.
Qed.

Lemma occurs_in_end (s : string) : occurs_in s s.
Proof. exists "", "". simpl. by rewrite append_empty_r. Qed.

Lemma denormalize_raises (total : nat) (mean : list float) (inv : ndarray2) :
  0 < total → denormalize total mean inv = ([], Raise (NameError "thevar")).
Proof.
  destruct total as [| n]; [lia |]. intros _.
  reflexivity.
Qed.

Lemma ltb_zero_asym (x : float) :
  F64.ltb x F64.zero = true → F64.ltb F64.zero x = false.
Proof. by destruct x as [[] | [] | | [] m e]. Qed.

Lemma is_negative_not_positive (v : pyval) :
  is_negative v = true → py_float_lt F64.zero v = mret false.
Proof.
  destruct v as [x | z | s |]; simpl; try done.
  - intros H. by rewrite ltb_zero_asym.
  - intros H%Z.ltb_lt. rewrite bool_decide_eq_false_2; [done |].
    intros [= Hc]. apply Z.compare_gt_iff in Hc. lia.
Qed.

Lemma is_negative_lt_zero (v : pyval) :
  is_negative v = true → py_lt_float v F64.zero = mret true.
Proof.
  destruct v as [x | z | s |]; simpl; try done.
  - by intros ->.
  - intros H%Z.ltb_lt. rewrite bool_decide_eq_true_2; [done |].
    f_equal. by apply Z.compare_lt_iff.
Qed.

Ltac returns_step H :=
  let t := fresh "t" in
  let x := fresh "x" in
  let E := fresh "E" in
  apply returns_bind in H as (t & x & E & H).

Section DecompositionEngine.

Context {Model : Type} (W : World Model).

Lemma workflow_returns_inv (a : args) :
  returns (niftidecomp_workflow W a) →
  ∃ t fv t' l, front W a = (t, Ret fv) ∧ decomposition W a fv = (t', Ret l)
               ∧ returns (return_statement fv l).
Proof.
  unfold niftidecomp_workflow. intros H.
  returns_step H. returns_step H. by exists t, x, t0, x0.
Qed.

Lemma workflow_after_front (a : args) (t : list event) (fv : front_vars) :
  front W a = (t, Ret fv) →
  niftidecomp_workflow W a =
    (t ++ trace (decomposition W a fv ≫= return_statement fv),
     result (decomposition W a fv ≫= return_statement fv)).
Proof. intros H. unfold niftidecomp_workflow. by rewrite (bind_Ret _ _ t fv H). Qed.

Lemma pca_branch_needs_denormalize (a : args) (fv : front_vars) :
  returns (pca_branch W a fv) →
  ∃ inv, returns (denormalize (totaltimepoints (f_stack fv))
                    (themean (f_norm fv)) inv).
Proof.
  unfold pca_branch. intros H.
  do 7 returns_step H.
  apply returns_bind in H as (t' & denormed & E' & _).
  eexists. eexists. by rewrite E'.
Qed.

(** C1.  The denormalization loop of lines 239-241 scales by [thevar],
    a name bound nowhere: its first turn raises [NameError], so with at
    least one time point the PCA/SparsePCA path never produces a
    reconstruction, and no run computes
    [thenormfac[i] * inverse_transform[:, i] + themean[i]]. *)
Theorem C1_denormalization_reads_thevar (a : args) (t : list event) (fv : front_vars) :
  front W a = (t, Ret fv) →
  decomptype a ≠ "ica" →
  0 < totaltimepoints (f_stack fv) →
  (∀ inv, denormalize (totaltimepoints (f_stack fv)) (themean (f_norm fv)) inv
          = ([], Raise (NameError "thevar")))
  ∧ ¬ returns (niftidecomp_workflow W a).
Proof.
  intros Hfront Hpca Hpos. split.
  - intros inv. by apply denormalize_raises.
  - intros H. apply workflow_returns_inv in H as (t1 & fv1 & t2 & l & Hf & Hd & _).
    rewrite Hfront in Hf. injection Hf as <- <-.
    unfold decomposition in Hd. destruct (decide _); [done |].
    destruct (pca_branch_needs_denormalize a fv) as (inv & x & Hx).
    { eexists. by rewrite Hd. }
    by rewrite denormalize_raises in Hx.
Qed.

End DecompositionEngine.

Lemma C1_denormalization_reads_thevar_witness :
  ¬ returns (niftidecomp_workflow Toy.world Toy.run).
Proof.
  eapply proj2, (C1_denormalization_reads_thevar Toy.world Toy.run).
  - vm_compute. reflexivity.
  - discriminate.
  - simpl. lia.
Defined.

Example workflow_on_toy_run_raises_NameError :
  result (niftidecomp_workflow Toy.world Toy.run) = Raise (NameError "thevar").
Proof. vm_compute. reflexivity. Qed.

Section DecompositionClaims.

Context {Model : Type} (W : World Model).

Lemma load_model_failure (root : string) (ex : pyexc) :
  joblib_load W (root +:+ "_pca.joblib") = inl ex →
  load_model W root =
    ([Print [PyStr "reading PCA from"; PyStr (root +:+ "_pca.joblib")];
      JoblibLoad (root +:+ "_pca.joblib");
      Print [PyStr ("An exception of type " +:+ exc_type ex
                    +:+ " occurred when trying to open " +:+ (root +:+ "_pca.joblib")
                    +:+ ". Arguments:" +:+ newline +:+ exc_args ex)]],
     Raise SystemExit).
Proof.
  intros H. unfold load_model. rewrite print_bind, emit_bind. simpl.
  by rewrite H.
Qed.

(** C6.  With a trained-model root on the PCA/SparsePCA path, a load
    that raises makes the run print one diagnostic, in which the
    exception's type name, the model file path and the exception's
    arguments occur, and end with [SystemExit]; nothing follows the
    diagnostic: no estimator is constructed, saved or fitted. *)
Theorem C6_model_load_failure (a : args) (fv : front_vars) (root : string)
    (ex : pyexc) :
  decomptype a ≠ "ica" →
  trainedmodelroot a = Some root →
  joblib_load W (root +:+ "_pca.joblib") = inl ex →
  ∃ message,
    decomposition W a fv =
      ([Print [PyStr "reading PCA from"; PyStr (root +:+ "_pca.joblib")];
        JoblibLoad (root +:+ "_pca.joblib");
        Print [PyStr message]],
       Raise SystemExit)
    ∧ occurs_in (exc_type ex) message
    ∧ occurs_in (root +:+ "_pca.joblib") message
    ∧ occurs_in (exc_args ex) message
    ∧ (∀ t, front W a = (t, Ret fv) →
            niftidecomp_workflow W a =
              (t ++ [Print [PyStr "reading PCA from"; PyStr (root +:+ "_pca.joblib")];
                     JoblibLoad (root +:+ "_pca.joblib");
                     Print [PyStr message]],
               Raise SystemExit)).
Proof.
  intros Hpca Hroot Hload. eexists.
  assert (Hdec : decomposition W a fv =
    ([Print [PyStr "reading PCA from"; PyStr (root +:+ "_pca.joblib")];
      JoblibLoad (root +:+ "_pca.joblib");
      Print [PyStr ("An exception of type " +:+ exc_type ex
                    +:+ " occurred when trying to open " +:+ (root +:+ "_pca.joblib")
                    +:+ ". Arguments:" +:+ newline +:+ exc_args ex)]],
     Raise SystemExit)).
  { unfold decomposition. destruct (decide _); [done |].
    unfold pca_branch, get_model. rewrite Hroot.
    by rewrite (bind_Raise (load_model W root) _ _ _ (load_model_failure root ex Hload)). }
  split; [exact Hdec |]. repeat split.
  - apply occurs_in_later, occurs_in_here.
  - do 3 apply occurs_in_later. apply occurs_in_here.
  - do 6 apply occurs_in_later. apply occurs_in_end.
  - intros t Hfront. rewrite (workflow_after_front W a t fv Hfront).
    by rewrite (bind_Raise _ _ _ _ Hdec).
Qed.

Lemma ica_branch_binds_nothing (a : args) (fv : front_vars) (t : list event)
    (l : locals) :
  ica_branch W a fv = (t, Ret l) → outputcomponents l = None.
Proof.
  unfold ica_branch. intros H.
  do 5 (apply bind_inv_Ret in H as (? & ? & ? & _ & H & _)).
  apply bind_inv_Ret in H as (? & ? & ? & _ & H & _).
  by injection H as _ <-.
Qed.

(** C9.  With [decomptype = "ica"] the workflow never returns: the ICA
    branch binds none of the names the [return] statement reads, so once
    the fit and its components are there the run ends with
    [UnboundLocalError] on [outputcomponents], the first of them. *)
Theorem C9_ica_cannot_return (a : args) :
  decomptype a = "ica" →
  ¬ returns (niftidecomp_workflow W a)
  ∧ (∀ t fv thefit comps,
       front W a = (t, Ret fv) →
       fit W (FastICA W (from_option PyInt PyNone (icacomponents a)))
           (transpose (normdata (f_norm fv))) = Ret thefit →
       components_ W thefit = Ret comps →
       result (niftidecomp_workflow W a)
       = Raise (UnboundLocalError "outputcomponents")).
Proof.
  intros Hica. split.
  - intros H. apply workflow_returns_inv in H as (t & fv & t' & l & _ & Hd & Hret).
    unfold decomposition in Hd. rewrite decide_True in Hd by done.
    apply ica_branch_binds_nothing in Hd.
    unfold return_statement in Hret. rewrite Hd in Hret.
    by destruct Hret.
  - intros t fv thefit comps Hfront Hfit Hcomps.
    rewrite (workflow_after_front W a t fv Hfront). simpl.
    unfold decomposition. rewrite decide_True by done.
    unfold ica_branch, call_fit.
    rewrite print_bind. simpl.
    destruct (icacomponents a) as [k |]; simpl in *;
      rewrite Hfit; simpl; rewrite Hcomps; done.
Qed.

Lemma retention_of_mle (thefit : Model) :
  retention W (PyStr "mle") thefit
  = ([], Raise (TypeError "'<' not supported between instances of 'str' and 'float'")).
Proof. done. Qed.

Lemma fresh_model_negative (a : args) (t : list event) (got : Model * pyval) :
  is_negative (pcacomponents a) = true →
  fresh_model W a = (t, Ret got) →
  got.2 = PyStr "mle"
  ∧ got.1 = (if decide (decomptype a = "pca") then PCA W else SparsePCA W) (PyStr "mle")
  ∧ NewEstimator (if decide (decomptype a = "pca") then "PCA" else "SparsePCA")
      (PyStr "mle") ∈ t.
Proof.
  intros Hneg. unfold fresh_model.
  rewrite print_bind, (is_negative_not_positive _ Hneg), mret_bind, mret_bind.
  simpl. rewrite (is_negative_lt_zero _ Hneg), mret_bind. simpl.
  destruct (decide (decomptype a = "pca")); simpl;
    destruct (joblib_dump W _ _) as [[] | err]; simpl; intros [= <- <-]; simpl;
    (split; [done | split; [done | repeat constructor]]).
Qed.

Lemma fresh_model_negative_returns (a : args) :
  is_negative (pcacomponents a) = true →
  joblib_dump W ((if decide (decomptype a = "pca") then PCA W else SparsePCA W)
                   (PyStr "mle")) (outputroot a +:+ "_pca.joblib") = Ret tt →
  fresh_model W a =
    ([Print [PyStr "performing pca decomposition"];
      Print [PyStr "will return"; PyStr "mle"; PyStr "components"];
      NewEstimator (if decide (decomptype a = "pca") then "PCA" else "SparsePCA")
        (PyStr "mle");
      JoblibDump (outputroot a +:+ "_pca.joblib")],
     Ret ((if decide (decomptype a = "pca") then PCA W else SparsePCA W)
            (PyStr "mle"), PyStr "mle")).
Proof.
  intros Hneg. unfold fresh_model.
  rewrite print_bind, (is_negative_not_positive _ Hneg), mret_bind, mret_bind.
  simpl. rewrite (is_negative_lt_zero _ Hneg), mret_bind. simpl.
  destruct (decide (decomptype a = "pca")); simpl; by intros ->.
Qed.

(** C10.  On the fresh-fit PCA/SparsePCA path a negative
    [pcacomponents] is rebound to the string ["mle"], which is what the
    estimator is constructed with; the retention test [pcacomponents <
    1.0] then compares that string with a float and raises [TypeError],
    so the run never gets past the retention step. *)
Theorem C10_mle_breaks_retention (a : args) :
  decomptype a ≠ "ica" →
  trainedmodelroot a = None →
  is_negative (pcacomponents a) = true →
  (joblib_dump W ((if decide (decomptype a = "pca") then PCA W else SparsePCA W)
                    (PyStr "mle")) (outputroot a +:+ "_pca.joblib") = Ret tt →
   get_model W a =
     ([Print [PyStr "performing pca decomposition"];
       Print [PyStr "will return"; PyStr "mle"; PyStr "components"];
       NewEstimator (if decide (decomptype a = "pca") then "PCA" else "SparsePCA")
         (PyStr "mle");
       JoblibDump (outputroot a +:+ "_pca.joblib")],
      Ret ((if decide (decomptype a = "pca") then PCA W else SparsePCA W)
             (PyStr "mle"), PyStr "mle")))
  ∧ (∀ thefit,
       retention W (PyStr "mle") thefit
       = ([], Raise (TypeError
                       "'<' not supported between instances of 'str' and 'float'")))
  ∧ (∀ fv, ¬ returns (decomposition W a fv))
  ∧ ¬ returns (niftidecomp_workflow W a).
Proof.
  intros Hpca Hroot Hneg.
  assert (Hdec : ∀ fv, ¬ returns (decomposition W a fv));
    [| split; [| split; [| split]]].
  2: { intros Hdump. unfold get_model. rewrite Hroot.
       by apply fresh_model_negative_returns. }
  2: { apply retention_of_mle. }
  2: { exact Hdec. }
  2: { intros H. apply workflow_returns_inv in H as (t & fv & t' & l & _ & Hd & _).
       apply (Hdec fv). eexists. by rewrite Hd. }
  - intros fv. unfold decomposition. destruct (decide _); [done |].
    unfold pca_branch, get_model. rewrite Hroot. intros H.
    apply returns_bind in H as (t & got & Hgot & H).
    apply (fresh_model_negative a t got Hneg) in Hgot as (Hpc & _ & _).
    do 3 returns_step H.
    apply returns_bind in H as (t' & c & Hret & _).
    rewrite Hpc in Hret. by rewrite retention_of_mle in Hret.
Qed.

End DecompositionClaims.

Lemma C6_model_load_failure_witness :
  ∃ t message,
    niftidecomp_workflow Toy.world (Toy.with_trainedmodelroot "x")
    = (t ++ [Print [PyStr "reading PCA from"; PyStr "x_pca.joblib"];
             JoblibLoad "x_pca.joblib";
             Print [PyStr message]],
       Raise SystemExit)
    ∧ occurs_in "FileNotFoundError" message
    ∧ occurs_in "x_pca.joblib" message
    ∧ occurs_in "(2, 'No such file or directory')" message.
Proof.
  assert (Hfront : ∃ t fv, front Toy.world (Toy.with_trainedmodelroot "x") = (t, Ret fv)).
  { vm_compute. eauto. }
  destruct Hfront as (t & fv & Hfront).
  destruct (C6_model_load_failure Toy.world (Toy.with_trainedmodelroot "x") fv "x"
              (PyExc "FileNotFoundError" "(2, 'No such file or directory')"))
    as (message & _ & Hty & Hpath & Hargs & Hrun).
  - discriminate.
  - reflexivity.
  - vm_compute. reflexivity.
  - exists t, message. split; [exact (Hrun t Hfront) | by repeat split].
Defined.

Lemma C9_ica_cannot_return_witness :
  ¬ returns (niftidecomp_workflow Toy.world (Toy.with_decomptype "ica"))
  ∧ result (niftidecomp_workflow Toy.world (Toy.with_decomptype "ica"))
    = Raise (UnboundLocalError "outputcomponents").
Proof.
  split.
  - exact (proj1 (C9_ica_cannot_return Toy.world (Toy.with_decomptype "ica") eq_refl)).
  - eapply (proj2 (C9_ica_cannot_return Toy.world (Toy.with_decomptype "ica") eq_refl)).
    + vm_compute. reflexivity.
    + vm_compute. reflexivity.
    + vm_compute. reflexivity.
Defined.

Lemma C10_mle_breaks_retention_witness :
  get_model Toy.world (Toy.with_pcacomponents (PyFloat (F64.of_Z (-1))))
  = ([Print [PyStr "performing pca decomposition"];
      Print [PyStr "will return"; PyStr "mle"; PyStr "components"];
      NewEstimator "PCA" (PyStr "mle");
      JoblibDump "out_pca.joblib"],
     Ret (Toy.Estimator "PCA" (PyStr "mle") None, PyStr "mle"))
  ∧ ¬ returns (niftidecomp_workflow Toy.world
                 (Toy.with_pcacomponents (PyFloat (F64.of_Z (-1))))).
Proof.
  destruct (C10_mle_breaks_retention Toy.world
              (Toy.with_pcacomponents (PyFloat (F64.of_Z (-1)))))
    as (Hmodel & _ & _ & Hrun).
  - discriminate.
  - reflexivity.
  - vm_compute. reflexivity.
  - split; [exact (Hmodel eq_refl) | exact Hrun].
Defined.

(** * Reassembler *)

Section Reassembler.

Lemma chunks_lookup {A} (n k i : nat) (l : list A) :
  i < n → chunks n k l !! i = Some (take k (drop (i * k) l)).
Proof.
  revert i l. induction n as [| n IH]; intros i l Hi; [lia |].
  destruct i as [| i]; simpl.
  - done.
  - rewrite IH by lia. by rewrite drop_drop, (Nat.add_comm k).
Qed.


Lemma lookup_take_drop {A} (l : list A) (start k j : nat) :
  j < k → take k (drop start l) !! j = l !! (start + j).
Proof. intros H. by rewrite lookup_take_lt, lookup_drop. Qed.

(** Reading a buffer of rows of one length [k]. *)
Lemma concat_lookup_uniform (k i j : nat) (rs : list (list float)) :
  Forall (λ r, length r = k) rs → j < k →
  concat rs !! (i * k + j) = rs !! i ≫= (.!! j).
Proof.
  intros Hwf Hj. revert i. induction Hwf as [| r rs Hr _ IH]; intros i.
  - done.
  - destruct i as [| i]; simpl.
    + rewrite lookup_app_l by lia. done.
    + rewrite lookup_app_r by lia.
      replace (k + i * k + j - length r) with (i * k + j) by lia. apply IH.
Qed.

Lemma foldl_insert_lookup_ne {A} (prs : list (nat * A)) (acc : list A) (i : nat) :
  i ∉ prs.*1 →
  foldl (λ acc pr, <[pr.1 := pr.2]> acc) acc prs !! i = acc !! i.
Proof.
  revert acc. induction prs as [| [p b] prs IH]; intros acc Hi; simpl; [done |].
  rewrite fmap_cons, not_elem_of_cons in Hi. destruct Hi as [Hne Hi].
  rewrite IH by done. simpl. by rewrite list_lookup_insert_ne.
Qed.

Lemma foldl_insert_Forall {A} (P : A → Prop) (prs : list (nat * A)) (acc : list A) :
  Forall P acc → Forall (λ pr, P pr.2) prs →
  Forall P (foldl (λ acc pr, <[pr.1 := pr.2]> acc) acc prs).
Proof.
  revert acc. induction prs as [| [p b] prs IH]; intros acc Hacc Hprs; simpl; [done |].
  apply Forall_cons in Hprs as [Hb Hprs]. apply IH; [| done].
  by apply Forall_insert.
Qed.

Lemma foldl_insert_length {A} (prs : list (nat * A)) (acc : list A) :
  length (foldl (λ acc pr, <[pr.1 := pr.2]> acc) acc prs) = length acc.
Proof.
  revert acc. induction prs as [| [p b] prs IH]; intros acc; simpl; [done |].
  by rewrite IH, length_insert.
Qed.

Lemma wf_zeros (n k : nat) : wf_mat (zeros n k).
Proof.
  unfold wf_mat, zeros. simpl. apply Forall_forall. intros r Hr.
  apply elem_of_replicate in Hr as [-> _]. apply length_replicate.
Qed.

Lemma broadcast_rows_wf (src : ndarray2) (n k : nat) (t : list event)
    (vals : list (list float)) :
  wf_mat src → broadcast_rows src n k = (t, Ret vals) →
  Forall (λ r, length r = k) vals ∧ length vals = n.
Proof.
  unfold broadcast_rows, wf_mat. intros Hwf H.
  destruct (_ && _) eqn:Hshape; [| discriminate]. injection H as _ <-.
  apply andb_true_iff in Hshape as [Hc Hr]. split.
  - apply Forall_fmap, Forall_forall. intros r Hin. simpl.
    destruct (ncols src =? k) eqn:Hk; [| apply length_replicate].
    apply Nat.eqb_eq in Hk as <-.
    destruct (nrows src =? n).
    + by apply (proj1 (Forall_forall _ _) Hwf).
    + apply elem_of_replicate in Hin as [-> _].
      unfold nrows in Hr. rewrite orb_false_l in Hr. apply Nat.eqb_eq in Hr.
      destruct (rows src) as [| r0 [| ? ?]]; try done. simpl.
      by apply Forall_cons in Hwf as [? _].
  - rewrite length_fmap. destruct (nrows src =? n) eqn:Hn.
    + by apply Nat.eqb_eq in Hn.
    + apply length_replicate.
Qed.

Lemma scatter_rows_spec (out src : ndarray2) (locs : list nat) (t : list event)
    (res : ndarray2) :
  wf_mat out → wf_mat src →
  scatter_rows out locs src = (t, Ret res) →
  ncols res = ncols out ∧ nrows res = nrows out ∧ wf_mat res
  ∧ ∀ i, i ∉ locs → rows res !! i = rows out !! i.
Proof.
  unfold scatter_rows. intros Hout Hsrc H.
  destruct (forallb _ _); [| discriminate].
  apply bind_inv_Ret in H as (t1 & vals & t2 & Hvals & H & _).
  injection H as _ <-. simpl.
  apply (broadcast_rows_wf src _ _ t1 vals Hsrc) in Hvals as [Hwf Hlen].
  repeat split.
  - unfold nrows. simpl. apply foldl_insert_length.
  - unfold wf_mat. simpl. apply foldl_insert_Forall; [done |].
    apply Forall_forall. intros [p r] Hin. simpl.
    apply elem_of_zip_r in Hin. by apply (proj1 (Forall_forall _ _) Hwf).
  - intros i Hi. apply foldl_insert_lookup_ne.
    rewrite fst_zip by lia. done.
Qed.

End Reassembler.

Lemma reshape4_item (m : ndarray2) (x y s k : nat) (t : list event) (out : ndarray4)
    (a b c f : nat) :
  wf_mat m → ncols m = k →
  reshape4 m x y s k = (t, Ret out) →
  a < x → b < y → c < s → f < k →
  shape4 out = (x, y, s, k)
  ∧ (a * y + b) * s + c < nrows m
  ∧ item4 out a b c f = rows m !! ((a * y + b) * s + c) ≫= (.!! f).
Proof.
  intros Hwf Hk. unfold reshape4. destruct (_ =? _) eqn:Hsize; [| discriminate].
  intros [= _ <-] Ha Hb Hc Hf. apply Nat.eqb_eq in Hsize. rewrite Hk in Hsize.
  assert (Hab : a * y + b < x * y) by nia.
  assert (Habc : (a * y + b) * s + c < x * y * s) by nia.
  split; [done |]. split; [nia |].
  unfold item4. simpl.
  rewrite chunks_lookup by done. simpl.
  rewrite lookup_take_drop by done.
  rewrite chunks_lookup by done. simpl.
  rewrite lookup_take_drop by done.
  rewrite chunks_lookup by done. simpl.
  rewrite lookup_take_drop by done.
  apply concat_lookup_uniform; [| done]. by rewrite <- Hk.
Qed.

(** C4.  In whatever the Reassembler returns, component maps and
    reconstructed volume alike, the array has shape
    (x, y, slices, feature-count) and every cell whose flattened spatial
    index [(a * ysize + b) * numslices + c] is not in [proclocs] is
    [0.0], for every feature; and the Reassembler does return once the
    listed indices are in range and the shapes agree. *)
Theorem C4_unselected_voxels_are_zero (nsl : nat) (locs : list nat)
    (src : ndarray2) (x y s : nat) :
  wf_mat src →
  (∀ t out,
     reassemble nsl locs src x y s = (t, Ret out) →
     shape4 out = (x, y, s, ncols src)
     ∧ ∀ a b c f,
         a < x → b < y → c < s → f < ncols src →
         (a * y + b) * s + c ∉ locs →
         item4 out a b c f = Some F64.zero)
  ∧ (Forall (λ p, p < nsl) locs → nrows src = length locs → nsl = x * y * s →
     returns (reassemble nsl locs src x y s)).
Proof.
  intros Hsrc. split.
  - intros t out H. unfold reassemble in H.
    apply bind_inv_Ret in H as (t1 & sc & t2 & Hsc & Hre & _).
    apply scatter_rows_spec in Hsc as (Hcols & Hrows & Hwf & Hkeep);
      [| apply wf_zeros | done].
    simpl in Hcols. split.
    + unfold reshape4 in Hre. destruct (_ =? _); [| discriminate].
      by injection Hre as _ <-.
    + intros a b c f Ha Hb Hc Hf Hout.
      destruct (reshape4_item sc x y s (ncols src) t2 out a b c f)
        as (_ & Hidx & ->); try done.
      rewrite Hkeep by done. simpl.
      rewrite Hrows in Hidx. unfold nrows in Hidx. simpl in Hidx.
      rewrite length_replicate in Hidx.
      rewrite lookup_replicate_2 by done. simpl.
      by rewrite lookup_replicate_2.
  - intros Hlocs Hlen Hnsl. unfold reassemble, scatter_rows, broadcast_rows.
    replace (forallb _ locs) with true.
    2: { symmetry. apply forallb_forall. intros p Hp%list_elem_of_In.
         apply Nat.ltb_lt. unfold nrows, zeros. simpl. rewrite length_replicate.
         by apply (proj1 (Forall_forall _ _) Hlocs). }
    simpl. rewrite !Nat.eqb_refl. rewrite <- Hlen, Nat.eqb_refl. simpl.
    unfold reshape4, nrows. simpl.
    rewrite foldl_insert_length, length_replicate, Hnsl, Nat.eqb_refl.
    by eexists.
Qed.

Lemma C4_unselected_voxels_are_zero_witness :
  ∃ out,
    reassemble 4 [0; 1; 3] (Mat 1 [[Toy.f 5]; [Toy.f 6]; [Toy.f 7]]) 2 2 1
    = ([], Ret out)
    ∧ shape4 out = (2, 2, 1, 1)
    ∧ item4 out 1 0 0 0 = Some F64.zero.
Proof.
  destruct (C4_unselected_voxels_are_zero 4 [0; 1; 3]
              (Mat 1 [[Toy.f 5]; [Toy.f 6]; [Toy.f 7]]) 2 2 1) as [Hzero Hret].
  - repeat constructor.
  - eexists. split; [vm_compute; reflexivity |].
    destruct (Hzero [] _ eq_refl) as [Hshape Hcells].
    split; [exact Hshape |].
    apply Hcells; [lia | lia | lia | simpl; lia |].
    vm_compute. intros H. repeat (inversion H; subst; clear H;
      match goal with Hx : _ ∈ _ |- _ => rename Hx into H | _ => idtac end).
Defined.

(** * Normalizer *)

Lemma map_columns_empty (h : nat → float → float) (lo : nat) (m : ndarray2) :
  map_columns h lo lo m = m.
Proof.
  destruct m as [k rs]. unfold map_columns. simpl. f_equal.
  rewrite <- (map_id rs) at 2. apply map_ext. intros r.
  apply list_eq. intros j. rewrite list_lookup_imap.
  replace ((lo <=? j) && (j <? lo)) with false
    by (symmetry; apply andb_false_iff; destruct (Nat.leb_spec lo j);
        [right; apply Nat.ltb_ge; lia | by left]).
  by destruct (r !! j).
Qed.

Lemma map_columns_step (h : nat → float → float) (lo hi : nat) (m : ndarray2) :
  lo < hi →
  map_columns h (S lo) hi (alter_column (h lo) lo m) = map_columns h lo hi m.
Proof.
  intros Hlt. unfold map_columns, alter_column. cbn [ncols rows]. f_equal.
  rewrite map_map. apply map_ext. intros r.
  apply list_eq. intros j. rewrite !list_lookup_imap, list_lookup_alter.
  destruct (decide (lo = j)) as [<- | Hne].
  - replace ((S lo <=? lo) && (lo <? hi)) with false
      by (symmetry; apply andb_false_iff; left; apply Nat.leb_gt; lia).
    replace ((lo <=? lo) && (lo <? hi)) with true
      by (symmetry; apply andb_true_iff; split;
          [apply Nat.leb_le; lia | apply Nat.ltb_lt; lia]).
    by destruct (r !! lo).
  - replace (S lo <=? j) with (lo <=? j); [done |].
    destruct (Nat.leb_spec lo j), (Nat.leb_spec (S lo) j); try done; lia.
Qed.

Lemma getitem_lt (l : list float) (k : nat) :
  k < length l → getitem l k = mret (l !!! k).
Proof.
  intros H. unfold getitem. by rewrite (list_lookup_lookup_total_lt l k).
Qed.

(** The loops of lines 137-138 and 161-162 in closed form. *)
Lemma column_loop (g : float → float → float) (fac : list float) (lo n : nat)
    (pd : ndarray2) :
  lo + n ≤ length fac →
  mfor (seq lo n)
       (λ i p, c ← getitem fac i; mret (alter_column (λ x, g x c) i p)) pd
  = ([], Ret (map_columns (λ j x, g x (fac !!! j)) lo (lo + n) pd)).
Proof.
  revert lo pd. induction n as [| n IH]; intros lo pd Hlen; simpl.
  - by rewrite Nat.add_0_r, map_columns_empty.
  - rewrite (getitem_lt fac lo) by lia.
    rewrite !mret_bind, IH by lia.
    rewrite (map_columns_step (λ j x, g x (fac !!! j))) by lia.
    by replace (S lo + n) with (lo + S n) by lia.
Qed.

Lemma omap_lookup_imap (f : nat → float → float) (j : nat) (rs : list (list float)) :
  omap (.!! j) (map (imap f) rs) = map (f j) (omap (.!! j) rs).
Proof.
  induction rs as [| r rs IH]; [done |].
  cbn [map omap list_omap]. rewrite list_lookup_imap, IH.
  by destruct (r !! j).
Qed.

Lemma column_map_columns (h : nat → float → float) (hi j : nat) (m : ndarray2) :
  j < hi → column (map_columns h 0 hi m) j = map (h j) (column m j).
Proof.
  intros Hj. unfold column, map_columns. cbn [rows].
  rewrite omap_lookup_imap. apply map_ext. intros x.
  apply Nat.ltb_lt in Hj. by rewrite Hj.
Qed.

Lemma item_map_columns (h : nat → float → float) (hi i j : nat) (m : ndarray2) :
  j < hi → item (map_columns h 0 hi m) i j = h j <$> item m i j.
Proof.
  intros Hj. unfold item, map_columns. simpl.
  rewrite list_lookup_fmap. destruct (rows m !! i) as [r |]; simpl; [| done].
  rewrite list_lookup_imap. apply Nat.ltb_lt in Hj. by rewrite Hj.
Qed.

Lemma item_nan_to_num (m : ndarray2) (i j : nat) :
  item (nan_to_num m) i j = F64.nan_to_num <$> item m i j.
Proof.
  unfold item, nan_to_num. simpl. rewrite list_lookup_fmap.
  destruct (rows m !! i) as [r |]; simpl; [| done]. apply list_lookup_fmap.
Qed.

Lemma nan_to_num_finite (x : float) : F64.is_finite (F64.nan_to_num x) = true.
Proof. by destruct x as [s | [] | | s m e]. Qed.

Lemma length_over_columns (reduce : list float → float) (m : ndarray2) :
  length (over_columns reduce m) = ncols m.
Proof. unfold over_columns. by rewrite length_map, length_seq. Qed.

Lemma lookup_over_columns (reduce : list float → float) (m : ndarray2) (j : nat) :
  j < ncols m → over_columns reduce m !! j = Some (reduce (column m j)).
Proof.
  intros Hj. unfold over_columns.
  change (map ?f ?l) with (f <$> l).
  by rewrite list_lookup_fmap, lookup_seq_lt.
Qed.

Lemma none_factor (m : float) :
  F64.add (F64.mul m F64.zero) F64.one
  = if F64.is_finite m then F64.one else F64.nan.
Proof. by destruct m as [[] | [] | | [] mx ex]. Qed.

Lemma div_by_zero (d c : float) :
  F64.is_zero c = true →
  F64.nan_to_num (F64.div d c)
  = match d with
    | S754_nan | S754_zero _ => F64.zero
    | _ => if xorb (F64.sign d) (F64.sign c) then F64.min_float else F64.max_float
    end.
Proof.
  destruct c as [sc | sc | | sc mc ec]; try done. intros _.
  by destruct d as [[] | [] | | [] md ed], sc.
Qed.

Lemma lift_bind {A B} (o : outcome A) (k : A → M B) :
  lift o ≫= k = match o with Ret a => k a | Raise e => ([], Raise e) end.
Proof. destruct o as [a | e]; [apply (mret_bind a k) | done]. Qed.

Lemma mmap_lift_trace {A B} (f : A → outcome B) (l : list A) :
  trace (mmap (λ x, lift (f x)) l) = [].
Proof.
  induction l as [| x l IH]; [done |].
  cbn [mmap]. rewrite lift_bind. destruct (f x) as [y | e]; [| done].
  destruct (mmap _ l) as [t [ys | e]]; simpl in IH; by subst.
Qed.

Lemma mmap_lift_total {A B} (f : A → outcome B) (l : list A) :
  Forall (λ x, ∃ y, f x = Ret y) l →
  ∃ ys, mmap (λ x, lift (f x)) l = ([], Ret ys).
Proof.
  induction 1 as [| x l [y Hy] _ [ys IH]].
  - by eexists.
  - cbn [mmap]. rewrite lift_bind, Hy, IH. by eexists.
Qed.

Section Normalizer.

Context {Model : Type} (W : World Model).

Lemma demean_columns_spec (a : args) (pd : ndarray2) :
  demean_columns a (over_columns (np_mean W) pd) pd
  = (demean_trace a, Ret (demeaned W a pd)).
Proof.
  unfold demean_columns, demean_trace, demeaned. destruct (demean a); [| done].
  rewrite print_bind, (column_loop F64.sub) by (by rewrite length_over_columns).
  done.
Qed.

Lemma ncols_demeaned (a : args) (pd : ndarray2) : ncols (demeaned W a pd) = ncols pd.
Proof. unfold demeaned. by destruct (demean a). Qed.

Lemma column_demeaned (a : args) (pd : ndarray2) (j : nat) :
  j < ncols pd → column (demeaned W a pd) j = demeaned_column W a pd j.
Proof.
  intros Hj. unfold demeaned, demeaned_column. destruct (demean a); [| done].
  rewrite column_map_columns by done.
  by rewrite (list_lookup_total_correct _ _ _ (lookup_over_columns _ pd j Hj)).
Qed.

Lemma item_demeaned (a : args) (pd : ndarray2) (i j : nat) :
  j < ncols pd →
  item (demeaned W a pd) i j
  = (λ v, if demean a then F64.sub v (np_mean W (column pd j)) else v)
      <$> item pd i j.
Proof.
  intros Hj. unfold demeaned. destruct (demean a).
  - rewrite item_map_columns by done.
    by rewrite (list_lookup_total_correct _ _ _ (lookup_over_columns _ pd j Hj)).
  - by destruct (item pd i j).
Qed.

(** The Normalizer once the factor is known. *)
Lemma normalizer_with_factor (a : args) (pd : ndarray2) (t : list event)
    (fac : list float) :
  normalization_factor W a (over_columns (np_mean W) pd) (demeaned W a pd)
    = (t, Ret fac) →
  length fac = ncols pd →
  normalizer W a pd
  = (demean_trace a ++ t,
     Ret (NormVars
            (nan_to_num (map_columns (λ j x, F64.div x (fac !!! j)) 0 (ncols pd)
                           (demeaned W a pd)))
            (over_columns (np_mean W) pd) fac)).
Proof.
  intros Hfac Hlen. unfold normalizer.
  rewrite (bind_Ret _ _ _ _ (demean_columns_spec a pd)).
  rewrite (bind_Ret _ _ _ _ Hfac). unfold divide_columns.
  rewrite (column_loop F64.div), ncols_demeaned by (rewrite ncols_demeaned; lia).
  simpl. by rewrite app_nil_r.
Qed.

Lemma normalizer_without_factor (a : args) (pd : ndarray2) (t : list event) (e : exn) :
  normalization_factor W a (over_columns (np_mean W) pd) (demeaned W a pd)
    = (t, Raise e) →
  normalizer W a pd = (demean_trace a ++ t, Raise e).
Proof.
  intros Hfac. unfold normalizer.
  rewrite (bind_Ret _ _ _ _ (demean_columns_spec a pd)).
  by rewrite (bind_Raise _ _ _ _ Hfac).
Qed.

Lemma over_columns_M_inv (reduce : list float → outcome float) (m : ndarray2)
    (t : list event) (vs : list float) :
  over_columns_M reduce m = (t, Ret vs) →
  length vs = ncols m
  ∧ ∀ j, j < ncols m → ∃ v, reduce (column m j) = Ret v ∧ vs !! j = Some v.
Proof.
  unfold over_columns_M. intros H. apply mmap_inv_Ret in H.
  split.
  - by rewrite <- (Forall2_length _ _ _ H), length_seq.
  - intros j Hj.
    destruct (Forall2_lookup_l _ _ _ j j H) as (v & Hv & t' & Hred).
    { by apply lookup_seq_lt. }
    exists v. split; [| done]. unfold lift in Hred. by injection Hred.
Qed.

Lemma normalization_factor_length (a : args) (mean : list float) (pd : ndarray2)
    (t : list event) (fac : list float) :
  length mean = ncols pd →
  normalization_factor W a mean pd = (t, Ret fac) →
  length fac = ncols pd.
Proof.
  intros Hmean. unfold normalization_factor.
  repeat (destruct (decide _); [rewrite print_bind |]).
  - intros [= _ <-]. by rewrite length_map.
  - by intros [= _ <-].
  - intros [= _ <-]. apply length_over_columns.
  - intros [= _ <-]. apply length_over_columns.
  - intros [= _ H].
    destruct (over_columns_M (np_max W) pd ≫= _) as [t' r] eqn:Hb.
    simpl in H. subst r.
    apply bind_inv_Ret in Hb as (t1 & maxes & t2 & Hmax & Hb & _).
    apply bind_inv_Ret in Hb as (t3 & mins & t4 & Hmin & Hb & _).
    injection Hb as _ <-.
    apply over_columns_M_inv in Hmax as [Hl1 _].
    apply over_columns_M_inv in Hmin as [Hl2 _].
    rewrite length_zip_with. lia.
  - intros [= _ <-]. apply length_over_columns.
  - rewrite print_bind. discriminate.
Qed.

Lemma normalizer_inv (a : args) (pd : ndarray2) (t : list event) (nv : norm_vars) :
  normalizer W a pd = (t, Ret nv) →
  ∃ t' fac,
    normalization_factor W a (over_columns (np_mean W) pd) (demeaned W a pd)
      = (t', Ret fac)
    ∧ length fac = ncols pd
    ∧ nv = NormVars
             (nan_to_num (map_columns (λ j x, F64.div x (fac !!! j)) 0 (ncols pd)
                            (demeaned W a pd)))
             (over_columns (np_mean W) pd) fac.
Proof.
  intros H.
  destruct (normalization_factor W a (over_columns (np_mean W) pd) (demeaned W a pd))
    as [t' [fac | e]] eqn:Hfac.
  - assert (Hlen : length fac = ncols pd).
    { rewrite <- (ncols_demeaned a pd).
      apply (normalization_factor_length a (over_columns (np_mean W) pd)
               (demeaned W a pd) t' fac); [| done].
      by rewrite length_over_columns, ncols_demeaned. }
    rewrite (normalizer_with_factor a pd t' fac Hfac Hlen) in H.
    injection H as _ <-. by exists t', fac.
  - by rewrite (normalizer_without_factor a pd t' e Hfac) in H.
Qed.

End Normalizer.

Ltac pick_method H :=
  unfold normalization_factor; rewrite H;
  repeat match goal with
         | |- context [decide (?x = ?y)] =>
             let Heq := fresh "Heq" in
             destruct (decide (x = y)) as [Heq | Heq];
             [try discriminate Heq | try (exfalso; apply Heq; reflexivity)]
         end;
  rewrite ?print_bind.

Section NormalizerClaims.

Context {Model : Type} (W : World Model).

Lemma factor_None (a : args) (mean : list float) (pd : ndarray2) :
  normmethod a = "None" →
  normalization_factor W a mean pd
  = ([Print [PyStr "will not normalize timecourses"]],
     Ret (map (λ m, F64.add (F64.mul m F64.zero) F64.one) mean)).
Proof. intros H. by pick_method H. Qed.

Lemma factor_percent (a : args) (mean : list float) (pd : ndarray2) :
  normmethod a = "percent" →
  normalization_factor W a mean pd
  = ([Print [PyStr "will normalize timecourses to percentage of mean"]], Ret mean).
Proof. intros H. by pick_method H. Qed.

Lemma factor_stddev (a : args) (mean : list float) (pd : ndarray2) :
  normmethod a = "stddev" →
  normalization_factor W a mean pd
  = ([Print [PyStr "will normalize timecourses to standard deviation of 1.0"]],
     Ret (over_columns (np_std W) pd)).
Proof. intros H. by pick_method H. Qed.

Lemma factor_z (a : args) (mean : list float) (pd : ndarray2) :
  normmethod a = "z" →
  normalization_factor W a mean pd
  = ([Print [PyStr "will normalize timecourses to variance of 1.0"]],
     Ret (over_columns (np_var W) pd)).
Proof. intros H. by pick_method H. Qed.

Lemma factor_mad (a : args) (mean : list float) (pd : ndarray2) :
  normmethod a = "mad" →
  normalization_factor W a mean pd
  = ([Print [PyStr "will normalize timecourses to median average deviate of 1.0"]],
     Ret (over_columns (mad W) pd)).
Proof. intros H. by pick_method H. Qed.

Lemma factor_p2p (a : args) (mean : list float) (pd : ndarray2) :
  normmethod a = "p2p" →
  normalization_factor W a mean pd
  = (Print [PyStr "will normalize timecourses to p-p deviation of 1.0"]
       :: trace (maxes ← over_columns_M (np_max W) pd;
                 mins ← over_columns_M (np_min W) pd;
                 mret (zip_with F64.sub maxes mins)),
     result (maxes ← over_columns_M (np_max W) pd;
             mins ← over_columns_M (np_min W) pd;
             mret (zip_with F64.sub maxes mins))).
Proof. intros H. by pick_method H. Qed.

Lemma factor_illegal (a : args) (mean : list float) (pd : ndarray2) :
  normmethod a ∉ legal_normmethods →
  normalization_factor W a mean pd
  = ([Print [PyStr "illegal normalization type"]], Raise SystemExit).
Proof.
  intros H. unfold normalization_factor.
  repeat (destruct (decide _) as [Heq | _];
          [exfalso; apply H; rewrite Heq; repeat constructor |]).
  by rewrite print_bind.
Qed.

Lemma normalizer_returns_total (a : args) (pd : ndarray2) (t : list event)
    (fac : list float) :
  normalization_factor W a (over_columns (np_mean W) pd) (demeaned W a pd)
    = (t, Ret fac) →
  ∃ t' nv,
    normalizer W a pd = (t', Ret nv) ∧ thenormfac nv = fac
    ∧ themean nv = over_columns (np_mean W) pd.
Proof.
  intros Hfac.
  assert (Hlen : length fac = ncols pd).
  { rewrite <- (ncols_demeaned W a pd).
    apply (normalization_factor_length W a (over_columns (np_mean W) pd)
             (demeaned W a pd) t fac); [| done].
    by rewrite length_over_columns, ncols_demeaned. }
  eexists _, _.
  split; [apply (normalizer_with_factor W a pd t fac Hfac Hlen) | done].
Qed.

(** What is left in [procdata] at time point [j], voxel row [i]. *)
Lemma normalized_item (a : args) (pd : ndarray2) (t : list event) (nv : norm_vars)
    (i j : nat) (v : float) :
  normalizer W a pd = (t, Ret nv) →
  j < ncols pd → item pd i j = Some v →
  ∃ c, thenormfac nv !! j = Some c
       ∧ item (normdata nv) i j
         = Some (F64.nan_to_num
                   (F64.div (if demean a
                             then F64.sub v (np_mean W (column pd j)) else v) c)).
Proof.
  intros H Hj Hv. apply normalizer_inv in H as (t' & fac & _ & Hlen & ->).
  exists (fac !!! j). split.
  - simpl. apply list_lookup_lookup_total_lt. lia.
  - simpl. rewrite item_nan_to_num, item_map_columns by done.
    rewrite item_demeaned by done. by rewrite Hv.
Qed.

(** C5, as the code has it.  After the division [np.nan_to_num] leaves
    only finite values in [procdata]: a NaN becomes 0, +infinity the
    largest finite double and -infinity the most negative one.  So at a
    time point whose factor is zero an entry is 0 when the value divided
    was zero or NaN, and the largest or most negative finite double, by
    the signs, when it was anything else. *)
Theorem C5_nan_to_num_after_division (a : args) (pd : ndarray2) (t : list event)
    (nv : norm_vars) :
  normalizer W a pd = (t, Ret nv) →
  (∀ i j x, item (normdata nv) i j = Some x → F64.is_finite x = true)
  ∧ (∀ i j v,
       j < ncols pd → item pd i j = Some v →
       ∃ c, thenormfac nv !! j = Some c
            ∧ let d := if demean a
                       then F64.sub v (np_mean W (column pd j)) else v in
              item (normdata nv) i j = Some (F64.nan_to_num (F64.div d c))
              ∧ (F64.is_zero c = true →
                 item (normdata nv) i j
                 = Some match d with
                        | S754_nan | S754_zero _ => F64.zero
                        | _ => if xorb (F64.sign d) (F64.sign c)
                               then F64.min_float else F64.max_float
                        end))
  ∧ F64.nan_to_num F64.nan = F64.zero
  ∧ F64.nan_to_num (S754_infinity false) = F64.max_float
  ∧ F64.nan_to_num (S754_infinity true) = F64.min_float
  ∧ (∀ x, F64.is_finite x = true → F64.nan_to_num x = x).
Proof.
  intros H. split; [| split; [| repeat split]].
  - intros i j x Hx.
    apply normalizer_inv in H as (t' & fac & _ & _ & ->). simpl in Hx.
    rewrite item_nan_to_num in Hx.
    destruct (item _ i j) as [y |]; [| done]. injection Hx as <-.
    apply nan_to_num_finite.
  - intros i j v Hj Hv.
    destruct (normalized_item a pd t nv i j v H Hj Hv) as (c & Hc & Hitem).
    exists c. split; [done |]. split; [done |].
    intros Hzero. rewrite Hitem. f_equal. by apply div_by_zero.
  - by intros [s | s | | s m e].
Qed.

(** C7, as the code has it.  A method outside the six legal ones ends
    the run with "illegal normalization type" and [SystemExit].  For the
    legal ones the factor at a time point is: for "None", 1 when the
    mean there is finite and NaN when it is not; for "percent", the mean
    taken before demeaning; for "stddev", "z" and "mad", numpy's standard
    deviation, numpy's variance and statsmodels' [mad] of the column as
    demeaning left it; for "p2p", its maximum less its minimum, whenever
    numpy's [max] and [min] return on it. *)
Theorem C7_normalization_methods (a : args) (pd : ndarray2) :
  (normmethod a ∉ legal_normmethods →
   normalizer W a pd
   = (demean_trace a ++ [Print [PyStr "illegal normalization type"]],
      Raise SystemExit)
   ∧ ∀ t sel,
       selection W a = (t, Ret sel) → pd = procdata (s_masked sel) →
       niftidecomp_workflow W a
       = (t ++ demean_trace a ++ [Print [PyStr "illegal normalization type"]],
          Raise SystemExit))
  ∧ (normmethod a = "None" →
     ∃ t nv, normalizer W a pd = (t, Ret nv)
             ∧ ∀ j, j < ncols pd →
                    thenormfac nv !! j
                    = Some (if F64.is_finite (np_mean W (column pd j))
                            then F64.one else F64.nan))
  ∧ (normmethod a = "percent" →
     ∃ t nv, normalizer W a pd = (t, Ret nv)
             ∧ ∀ j, j < ncols pd →
                    thenormfac nv !! j = Some (np_mean W (column pd j)))
  ∧ (normmethod a = "stddev" →
     ∃ t nv, normalizer W a pd = (t, Ret nv)
             ∧ ∀ j, j < ncols pd →
                    thenormfac nv !! j
                    = Some (np_std W (demeaned_column W a pd j)))
  ∧ (normmethod a = "z" →
     ∃ t nv, normalizer W a pd = (t, Ret nv)
             ∧ ∀ j, j < ncols pd →
                    thenormfac nv !! j
                    = Some (np_var W (demeaned_column W a pd j)))
  ∧ (normmethod a = "p2p" →
     (∀ t nv, normalizer W a pd = (t, Ret nv) →
              ∀ j, j < ncols pd →
                   ∃ mx mn, np_max W (demeaned_column W a pd j) = Ret mx
                            ∧ np_min W (demeaned_column W a pd j) = Ret mn
                            ∧ thenormfac nv !! j = Some (F64.sub mx mn))
     ∧ ((∀ j, j < ncols pd →
              ∃ mx mn, np_max W (demeaned_column W a pd j) = Ret mx
                       ∧ np_min W (demeaned_column W a pd j) = Ret mn) →
        returns (normalizer W a pd)))
  ∧ (normmethod a = "mad" →
     ∃ t nv, normalizer W a pd = (t, Ret nv)
             ∧ ∀ j, j < ncols pd →
                    thenormfac nv !! j
                    = Some (mad W (demeaned_column W a pd j))).
Proof.
  split; [| split; [| split; [| split; [| split; [| split]]]]].
  - intros Hill.
    assert (Hnorm : normalizer W a pd
              = (demean_trace a ++ [Print [PyStr "illegal normalization type"]],
                 Raise SystemExit)).
    { apply normalizer_without_factor. by apply factor_illegal. }
    split; [done |]. intros t sel Hsel ->.
    unfold niftidecomp_workflow, front.
    rewrite (bind_Ret _ _ _ _ Hsel). rewrite (bind_Raise _ _ _ _ Hnorm). done.
  - intros Hm.
    destruct (normalizer_returns_total a pd _ _
                (factor_None a _ _ Hm)) as (t & nv & Hnv & Hfac & _).
    exists t, nv. split; [done |]. intros j Hj. rewrite Hfac.
    change (map ?f ?l) with (f <$> l).
    by rewrite list_lookup_fmap, lookup_over_columns, <- none_factor.
  - intros Hm.
    destruct (normalizer_returns_total a pd _ _
                (factor_percent a _ _ Hm)) as (t & nv & Hnv & Hfac & _).
    exists t, nv. split; [done |]. intros j Hj. rewrite Hfac.
    by apply lookup_over_columns.
  - intros Hm.
    destruct (normalizer_returns_total a pd _ _
                (factor_stddev a _ _ Hm)) as (t & nv & Hnv & Hfac & _).
    exists t, nv. split; [done |]. intros j Hj. rewrite Hfac.
    rewrite lookup_over_columns by (by rewrite ncols_demeaned).
    by rewrite column_demeaned.
  - intros Hm.
    destruct (normalizer_returns_total a pd _ _
                (factor_z a _ _ Hm)) as (t & nv & Hnv & Hfac & _).
    exists t, nv. split; [done |]. intros j Hj. rewrite Hfac.
    rewrite lookup_over_columns by (by rewrite ncols_demeaned).
    by rewrite column_demeaned.
  - intros Hm. split.
    + intros t nv Hnv j Hj.
      apply normalizer_inv in Hnv as (t' & fac & Hfac & _ & ->). simpl.
      rewrite (factor_p2p a _ _ Hm) in Hfac.
      destruct (over_columns_M (np_max W) (demeaned W a pd) ≫= _)
        as [tb rb] eqn:Hb.
      simpl in Hfac. injection Hfac as _ ->.
      apply bind_inv_Ret in Hb as (t1 & maxes & t2 & Hmax & Hb & _).
      apply bind_inv_Ret in Hb as (t3 & mins & t4 & Hmin & Hb & _).
      injection Hb as _ <-.
      apply over_columns_M_inv in Hmax as [_ Hmax].
      apply over_columns_M_inv in Hmin as [_ Hmin].
      rewrite ncols_demeaned in Hmax, Hmin.
      destruct (Hmax j Hj) as (mx & Hmx & Hlmx).
      destruct (Hmin j Hj) as (mn & Hmn & Hlmn).
      rewrite column_demeaned in Hmx, Hmn by done.
      exists mx, mn. repeat split; try done.
      by rewrite lookup_zip_with, Hlmx, Hlmn.
    + intros Hdef.
      assert (Hall : ∀ reduce : list float → outcome float,
                (∀ j, j < ncols pd →
                      ∃ v, reduce (demeaned_column W a pd j) = Ret v) →
                ∃ vs, over_columns_M reduce (demeaned W a pd) = ([], Ret vs)).
      { intros reduce Hred. unfold over_columns_M.
        apply (mmap_lift_total (λ j, reduce (column (demeaned W a pd) j))).
        apply Forall_forall. intros j Hin%elem_of_seq.
        rewrite ncols_demeaned in Hin.
        rewrite column_demeaned by lia. apply Hred. lia. }
      destruct (Hall (np_max W)) as [maxes Hmax].
      { intros j Hj. destruct (Hdef j Hj) as (mx & _ & Hmx & _). by exists mx. }
      destruct (Hall (np_min W)) as [mins Hmin].
      { intros j Hj. destruct (Hdef j Hj) as (_ & mn & _ & Hmn). by exists mn. }
      destruct (normalizer_returns_total a pd
                  [Print [PyStr "will normalize timecourses to p-p deviation of 1.0"]]
                  (zip_with F64.sub maxes mins)) as (t & nv & Hnv & _).
      { rewrite (factor_p2p a _ _ Hm), Hmax.
        change (([], Ret maxes) : M (list float)) with (mret maxes : M (list float)).
        rewrite mret_bind, Hmin. done. }
      exists nv. by rewrite Hnv.
  - intros Hm.
    destruct (normalizer_returns_total a pd _ _
                (factor_mad a _ _ Hm)) as (t & nv & Hnv & Hfac & _).
    exists t, nv. split; [done |]. intros j Hj. rewrite Hfac.
    rewrite lookup_over_columns by (by rewrite ncols_demeaned).
    by rewrite column_demeaned.
Qed.

(** C8.  With "percent" and demeaning on, the factor at each time point
    is the mean over voxels of [procdata] as it was before demeaning,
    and each demeaned value is divided by that mean (then passed through
    [np.nan_to_num]). *)
Theorem C8_percent_uses_pre_demean_mean (a : args) (pd : ndarray2) :
  normmethod a = "percent" →
  demean a = true →
  ∃ t nv,
    normalizer W a pd = (t, Ret nv)
    ∧ thenormfac nv = over_columns (np_mean W) pd
    ∧ (∀ j, j < ncols pd → thenormfac nv !! j = Some (np_mean W (column pd j)))
    ∧ (∀ i j v,
         j < ncols pd → item pd i j = Some v →
         item (normdata nv) i j
         = Some (F64.nan_to_num
                   (F64.div (F64.sub v (np_mean W (column pd j)))
                            (np_mean W (column pd j))))).
Proof.
  intros Hm Hdemean.
  destruct (normalizer_returns_total a pd _ _
              (factor_percent a _ _ Hm)) as (t & nv & Hnv & Hfac & _).
  exists t, nv. split; [done |]. split; [done |]. split.
  - intros j Hj. rewrite Hfac. by apply lookup_over_columns.
  - intros i j v Hj Hv.
    destruct (normalized_item a pd t nv i j v Hnv Hj Hv) as (c & Hc & Hitem).
    rewrite Hfac, lookup_over_columns in Hc by done. injection Hc as <-.
    by rewrite Hitem, Hdemean.
Qed.

End NormalizerClaims.

(** C5 as stated fails: over the series holding 1 and -1 the "percent"
    factor is 0, and the two entries come out as the largest and the
    most negative finite double, not as 0. *)
Lemma C5_zero_factor_counterexample :
  ∃ t fv,
    front Toy.world (Toy.pair_run "pair" "percent" true) = (t, Ret fv)
    ∧ thenormfac (f_norm fv) = [F64.zero]
    ∧ rows (normdata (f_norm fv)) = [[F64.max_float]; [F64.min_float]]
    ∧ F64.max_float ≠ F64.zero
    ∧ F64.min_float ≠ F64.zero.
Proof.
  eexists _, _. split; [vm_compute; reflexivity |].
  repeat split; try discriminate; vm_compute; reflexivity.
Qed.

Lemma C5_nan_to_num_after_division_witness :
  ∃ t nv,
    normalizer Toy.world (Toy.pair_run "pair" "percent" true)
      (Mat 1 [[Toy.f 1]; [Toy.f (-1)]]) = (t, Ret nv)
    ∧ ∀ i j x, item (normdata nv) i j = Some x → F64.is_finite x = true.
Proof.
  assert (H : ∃ t nv,
            normalizer Toy.world (Toy.pair_run "pair" "percent" true)
              (Mat 1 [[Toy.f 1]; [Toy.f (-1)]]) = (t, Ret nv)).
  { eexists _, _. vm_compute. reflexivity. }
  destruct H as (t & nv & H). exists t, nv. split; [exact H |].
  exact (proj1 (C5_nan_to_num_after_division Toy.world _ _ t nv H)).
Defined.

(** C7 as stated fails: with "None" over the series holding a NaN the
    mean is NaN and so is the factor, not 1. *)
Lemma C7_none_factor_counterexample :
  ∃ t fv,
    front Toy.world (Toy.pair_run "pair_nan" "None" true) = (t, Ret fv)
    ∧ thenormfac (f_norm fv) = [F64.nan]
    ∧ F64.nan ≠ F64.one.
Proof.
  eexists _, _. split; [vm_compute; reflexivity |].
  split; [vm_compute; reflexivity | discriminate].
Qed.

Lemma C7_normalization_methods_witness :
  normalizer Toy.world (Toy.with_normmethod "bogus" true) Toy.run_procdata
  = ([Print [PyStr "demeaning array"]; Print [PyStr "illegal normalization type"]],
     Raise SystemExit)
  ∧ ∃ t nv,
      normalizer Toy.world (Toy.with_normmethod "stddev" true) Toy.run_procdata
      = (t, Ret nv)
      ∧ ∀ j, j < 2 →
             thenormfac nv !! j
             = Some (Toy.std (demeaned_column Toy.world
                                (Toy.with_normmethod "stddev" true)
                                Toy.run_procdata j)).
Proof.
  split.
  - refine (proj1 (proj1 (C7_normalization_methods Toy.world
                            (Toy.with_normmethod "bogus" true) Toy.run_procdata) _)).
    intros H%list_elem_of_In. simpl in H. intuition discriminate.
  - exact (proj1 (proj2 (proj2 (proj2
             (C7_normalization_methods Toy.world
                (Toy.with_normmethod "stddev" true) Toy.run_procdata)))) eq_refl).
Defined.

Lemma C8_percent_uses_pre_demean_mean_witness :
  ∃ t nv,
    normalizer Toy.world (Toy.with_normmethod "percent" true) Toy.run_procdata
    = (t, Ret nv)
    ∧ thenormfac nv = [Toy.mean [Toy.f 1; Toy.f 3; Toy.f 4];
                       Toy.mean [Toy.f 2; Toy.f 5; Toy.f 8]].
Proof.
  destruct (C8_percent_uses_pre_demean_mean Toy.world
              (Toy.with_normmethod "percent" true) Toy.run_procdata
              eq_refl eq_refl) as (t & nv & Hnv & Hfac & _).
  exists t, nv. split; [exact Hnv | exact Hfac].
Defined.

(** In the toy run the mean of the demeaned columns is not the factor. *)
Example percent_factor_is_not_the_demeaned_mean :
  over_columns Toy.mean
    (demeaned Toy.world (Toy.with_normmethod "percent" true) Toy.run_procdata)
  ≠ over_columns Toy.mean Toy.run_procdata.
Proof. vm_compute. discriminate. Qed.

(** * Voxel selection: gathering and scattering rows *)

Lemma np_where_lt (bs : list bool) : Forall (λ i, i < length bs) (np_where bs).
Proof.
  apply Forall_forall. intros i Hi%elem_of_np_where. by apply lookup_lt_Some in Hi.
Qed.

Lemma where_from_NoDup (bs : list bool) (s : nat) : NoDup (where_from s bs).
Proof.
  revert s. induction bs as [| b bs IH]; intros s; simpl; [constructor |].
  destruct b; simpl; [| apply IH].
  constructor; [| apply IH].
  intros (k & Hk & _)%elem_of_where_from. lia.
Qed.

Lemma get_row_lt (m : ndarray2) (p : nat) :
  p < nrows m → get_row m p = mret (rows m !!! p).
Proof.
  intros H. unfold get_row. by rewrite (list_lookup_lookup_total_lt (rows m) p).
Qed.

Lemma get_row_ge (m : ndarray2) (p : nat) :
  nrows m ≤ p → get_row m p = raise (IndexError "index out of bounds").
Proof. intros H. unfold get_row. by rewrite lookup_ge_None_2. Qed.

Lemma take_rows_loop (m : ndarray2) (locs : list nat) (acc : list (list float)) :
  Forall (λ p, p < nrows m) locs →
  mfor locs (λ p acc, r ← get_row m p; mret (acc ++ [r])) acc
  = ([], Ret (acc ++ map (λ p, rows m !!! p) locs)).
Proof.
  intros Hlocs. revert acc.
  induction Hlocs as [| p locs Hp _ IH]; intros acc; simpl.
  - by rewrite app_nil_r.
  - rewrite (get_row_lt m p Hp), !mret_bind, IH. by rewrite <- app_assoc.
Qed.

Lemma take_rows_loop_out_of_range (m : ndarray2) (locs : list nat)
    (acc : list (list float)) :
  ¬ Forall (λ p, p < nrows m) locs →
  mfor locs (λ p acc, r ← get_row m p; mret (acc ++ [r])) acc
  = ([], Raise (IndexError "index out of bounds")).
Proof.
  revert acc. induction locs as [| p locs IH]; intros acc Hbad; simpl.
  - destruct Hbad. constructor.
  - destruct (decide (p < nrows m)) as [Hp | Hp].
    + rewrite (get_row_lt m p Hp), !mret_bind. apply IH. intros Hall.
      apply Hbad. by constructor.
    + by rewrite (get_row_ge m p) by lia.
Qed.

(** X1.  [procdata = rs_datafile[proclocs, :][0]] has one row for each
    entry of [proclocs], in that order, and row [k] is the row of
    [rs_datafile] at [proclocs[k]]; the number of columns is kept.  An
    index beyond the last row makes the selection raise [IndexError]
    instead. *)
Theorem X1_procdata_is_the_selected_rows (m : ndarray2) (locs : list nat) :
  (Forall (λ p, p < nrows m) locs →
   ∃ pd, take_rows m locs = ([], Ret pd)
         ∧ ncols pd = ncols m
         ∧ nrows pd = length locs
         ∧ ∀ k p, locs !! k = Some p → rows pd !! k = rows m !! p)
  ∧ (¬ Forall (λ p, p < nrows m) locs →
     take_rows m locs = ([], Raise (IndexError "index out of bounds"))).
Proof.
  split.
  - intros Hlocs. unfold take_rows. rewrite (take_rows_loop m locs [] Hlocs).
    eexists. split; [reflexivity |]. simpl. split; [done |]. split.
    + unfold nrows. simpl. by rewrite length_map.
    + intros k p Hk. change (map ?f ?l) with (f <$> l).
      rewrite list_lookup_fmap, Hk. simpl.
      symmetry. apply list_lookup_lookup_total_lt.
      by apply (proj1 (Forall_lookup _ _) Hlocs k p).
  - intros Hbad. unfold take_rows.
    by rewrite (take_rows_loop_out_of_range m locs [] Hbad).
Qed.

Lemma X1_procdata_is_the_selected_rows_witness :
  (∃ pd, take_rows (Mat 1 [[Toy.f 5]; [Toy.f 6]; [Toy.f 7]]) [2; 0] = ([], Ret pd)
         ∧ rows pd !! 0 = Some [Toy.f 7])
  ∧ take_rows (Mat 1 [[Toy.f 5]; [Toy.f 6]; [Toy.f 7]]) [2; 3]
    = ([], Raise (IndexError "index out of bounds")).
Proof.
  destruct (X1_procdata_is_the_selected_rows
              (Mat 1 [[Toy.f 5]; [Toy.f 6]; [Toy.f 7]]) [2; 0]) as [Hin _].
  destruct (X1_procdata_is_the_selected_rows
              (Mat 1 [[Toy.f 5]; [Toy.f 6]; [Toy.f 7]]) [2; 3]) as [_ Hout].
  split.
  - destruct Hin as (pd & Hpd & _ & _ & Hrows).
    { repeat constructor. }
    exists pd. split; [exact Hpd |]. exact (Hrows 0 2 eq_refl).
  - apply Hout. intros Hall.
    apply Forall_cons in Hall as [_ Hall]. apply Forall_cons in Hall as [H3 _].
    unfold nrows in H3. simpl in H3. lia.
Defined.

Section MaskIndices.

Context {Model : Type} (W : World Model).

(** X2.  Whenever the Mask Selector returns, [numspatiallocs] is the
    product of the mask's three spatial sizes, and [proclocs] lists
    indices below [numspatiallocs], none of them twice. *)
Theorem X2_mask_proclocs_are_distinct_and_in_range (a : args) (t : list event)
    (mv : mask_vars) :
  mask_selector W a = (t, Ret mv) →
  numspatiallocs mv = mask_xsize mv * mask_ysize mv * mask_numslices mv
  ∧ NoDup (mask_proclocs mv)
  ∧ Forall (λ p, p < numspatiallocs mv) (mask_proclocs mv).
Proof.
  unfold mask_selector. intros H.
  do 3 (apply bind_inv_Ret in H as (? & ? & ? & _ & H & _)).
  destruct (parseniftidims W _) as [[[xs ys] ss] tp].
  destruct (tp =? 1).
  - apply bind_inv_Ret in H as (t1 & themask & t2 & Hmask & H & _).
    injection H as _ <-. simpl.
    unfold reshape1 in Hmask.
    destruct (length _ =? _) eqn:Hlen; [| discriminate].
    injection Hmask as _ <-. apply Nat.eqb_eq in Hlen.
    split; [done |]. split; [apply where_from_NoDup |].
    rewrite <- Hlen, <- (length_map (λ v, F64.gtb v (maskthresh a))).
    apply np_where_lt.
  - rewrite print_bind in H. discriminate.
Qed.

End MaskIndices.

Lemma X2_mask_proclocs_are_distinct_and_in_range_witness :
  ∃ t mv, mask_selector Toy.world Toy.run = (t, Ret mv)
          ∧ NoDup (mask_proclocs mv)
          ∧ Forall (λ p, p < 4) (mask_proclocs mv).
Proof.
  assert (H : ∃ t mv, mask_selector Toy.world Toy.run = (t, Ret mv)
                      ∧ numspatiallocs mv = 4).
  { eexists _, _. vm_compute. split; reflexivity. }
  destruct H as (t & mv & H & Hn). exists t, mv. split; [exact H |].
  destruct (X2_mask_proclocs_are_distinct_and_in_range Toy.world Toy.run t mv H)
    as (_ & Hnodup & Hlt).
  split; [exact Hnodup |]. rewrite <- Hn. exact Hlt.
Defined.

Lemma foldl_insert_lookup_in {A} (prs : list (nat * A)) (acc : list A)
    (k p : nat) (r : A) :
  NoDup prs.*1 → prs !! k = Some (p, r) → p < length acc →
  foldl (λ acc pr, <[pr.1 := pr.2]> acc) acc prs !! p = Some r.
Proof.
  revert acc k. induction prs as [| [p0 r0] prs IH]; intros acc k Hnd Hk Hp; [done |].
  rewrite fmap_cons in Hnd. apply NoDup_cons in Hnd as [Hfresh Hnd].
  destruct k as [| k]; simpl in *.
  - injection Hk as -> ->.
    rewrite foldl_insert_lookup_ne by done. by apply list_lookup_insert_eq.
  - apply (IH _ k); [done | done | by rewrite length_insert].
Qed.

Lemma scatter_rows_selected (out src : ndarray2) (locs : list nat) (t : list event)
    (res : ndarray2) :
  scatter_rows out locs src = (t, Ret res) →
  NoDup locs → nrows src = length locs → ncols src = ncols out →
  ∀ j p, locs !! j = Some p → rows res !! p = rows src !! j.
Proof.
  unfold scatter_rows, broadcast_rows. intros H Hnd Hrows Hcols j p Hj.
  destruct (forallb _ locs) eqn:Hrange; [| discriminate].
  rewrite Hcols, Hrows, !Nat.eqb_refl in H. simpl in H.
  injection H as _ <-. simpl.
  assert (Hp : p < nrows out).
  { apply Nat.ltb_lt. apply (proj1 (forallb_forall _ _) Hrange).
    apply list_elem_of_In, list_elem_of_lookup. by exists j. }
  destruct (rows src !! j) as [r |] eqn:Hr.
  - apply (foldl_insert_lookup_in _ _ j).
    + rewrite fst_zip; [done |]. rewrite length_map. unfold nrows in Hrows. lia.
    + rewrite lookup_zip_with, Hj. simpl.
      change (map ?f ?l) with (f <$> l). by rewrite list_lookup_fmap, Hr.
    + done.
  - apply lookup_ge_None in Hr. apply lookup_lt_Some in Hj.
    unfold nrows in Hrows. lia.
Qed.

(** X3.  In what the Reassembler returns, a selected voxel carries its
    own row: when [proclocs] has no index twice and the source has one
    row for each of its entries, the cell at the spatial position whose
    flattened index is [proclocs[j]] holds, for every feature [f], entry
    [(j, f)] of the source. *)
Theorem X3_selected_voxels_carry_their_rows (nsl : nat) (locs : list nat)
    (src : ndarray2) (x y s : nat) (t : list event) (out : ndarray4) :
  wf_mat src → NoDup locs → nrows src = length locs →
  reassemble nsl locs src x y s = (t, Ret out) →
  ∀ j a b c f,
    locs !! j = Some ((a * y + b) * s + c) →
    a < x → b < y → c < s → f < ncols src →
    item4 out a b c f = item src j f.
Proof.
  intros Hsrc Hnd Hrows H j a b c f Hj Ha Hb Hc Hf. unfold reassemble in H.
  apply bind_inv_Ret in H as (t1 & sc & t2 & Hsc & Hre & _).
  pose proof (scatter_rows_selected _ _ _ _ _ Hsc Hnd Hrows eq_refl j _ Hj) as Hsel.
  apply scatter_rows_spec in Hsc as (Hcols & _ & Hwf & _);
    [| apply wf_zeros | done].
  simpl in Hcols.
  destruct (reshape4_item sc x y s (ncols src) t2 out a b c f)
    as (_ & _ & ->); try done.
  by rewrite Hsel.
Qed.

Lemma X3_selected_voxels_carry_their_rows_witness :
  ∃ out,
    reassemble 4 [0; 1; 3] (Mat 1 [[Toy.f 5]; [Toy.f 6]; [Toy.f 7]]) 2 2 1
    = ([], Ret out)
    ∧ item4 out 1 1 0 0 = Some (Toy.f 7).
Proof.
  eexists. split; [vm_compute; reflexivity |].
  refine (X3_selected_voxels_carry_their_rows 4 [0; 1; 3]
            (Mat 1 [[Toy.f 5]; [Toy.f 6]; [Toy.f 7]]) 2 2 1 [] _
            _ _ eq_refl eq_refl 2 1 1 0 0 eq_refl _ _ _ _).
  - repeat constructor.
  - repeat constructor; intros H; repeat (apply elem_of_cons in H as [H | H];
      [discriminate H |]); by apply elem_of_nil in H.
  - lia.
  - lia.
  - lia.
  - simpl. lia.
Defined.

Section FallbackSelection.

Context {Model : Type} (W : World Model).

(** X4.  The selection held for a run without a mask (lines 122-127):
    when it returns, the stacked matrix has [numspatiallocs] rows and
    the selected indices, none twice, are exactly the voxels whose
    maximum over time less their minimum is greater than zero; it
    returns whenever the matrix has [numspatiallocs] rows and numpy's
    [max] and [min] return on each of them. *)
Theorem X4_fallback_selects_positive_range (nsl : nat) (rs : ndarray2) :
  (∀ t locs,
     nonzero_range_locs W nsl rs = (t, Ret locs) →
     nrows rs = nsl ∧ NoDup locs
     ∧ ∀ i, i ∈ locs ↔
            ∃ r mx mn, rows rs !! i = Some r ∧ np_max W r = Ret mx
                       ∧ np_min W r = Ret mn
                       ∧ F64.gtb (F64.sub mx mn) F64.zero = true)
  ∧ (nrows rs = nsl →
     Forall (λ r, ∃ mx mn, np_max W r = Ret mx ∧ np_min W r = Ret mn) (rows rs) →
     returns (nonzero_range_locs W nsl rs)).
Proof.
  split.
  - intros t locs H. split; [| split].
    + unfold nonzero_range_locs in H.
      apply bind_inv_Ret in H as (t1 & maxes & t2 & Hmax & H & _).
      apply bind_inv_Ret in H as (t3 & mins & t4 & Hmin & H & _).
      destruct (_ =? nsl) eqn:Hlen; [| discriminate]. apply Nat.eqb_eq in Hlen.
      apply mmap_inv_Ret, Forall2_length in Hmax, Hmin.
      rewrite length_zip_with in Hlen. unfold nrows. lia.
    + unfold nonzero_range_locs in H.
      apply bind_inv_Ret in H as (t1 & maxes & t2 & _ & H & _).
      apply bind_inv_Ret in H as (t3 & mins & t4 & _ & H & _).
      destruct (_ =? nsl); [| discriminate]. injection H as _ <-.
      apply where_from_NoDup.
    + by apply (nonzero_range_locs_spec W nsl rs t locs).
  - intros Hrows Hdef. unfold nonzero_range_locs.
    destruct (mmap_lift_total (np_max W) (rows rs)) as [maxes Hmax].
    { apply (Forall_impl _ _ _ Hdef). intros r (mx & _ & ? & _). by exists mx. }
    destruct (mmap_lift_total (np_min W) (rows rs)) as [mins Hmin].
    { apply (Forall_impl _ _ _ Hdef). intros r (_ & mn & _ & ?). by exists mn. }
    rewrite Hmax.
    change (([], Ret maxes) : M (list float)) with (mret maxes : M (list float)).
    rewrite mret_bind, Hmin.
    change (([], Ret mins) : M (list float)) with (mret mins : M (list float)).
    rewrite mret_bind.
    apply mmap_inv_Ret, Forall2_length in Hmax, Hmin.
    rewrite length_zip_with.
    replace (length maxes `min` length mins) with nsl by (unfold nrows in Hrows; lia).
    rewrite Nat.eqb_refl. by eexists.
Qed.

End FallbackSelection.

Lemma X4_fallback_selects_positive_range_witness :
  nonzero_range_locs Toy.world 4
    (Mat 2 [[Toy.f 1; Toy.f 2]; [Toy.f 3; Toy.f 5]; [Toy.f 0; Toy.f 0];
            [Toy.f 4; Toy.f 8]])
  = ([], Ret [0; 1; 3])
  ∧ NoDup [0; 1; 3]
  ∧ returns (nonzero_range_locs Toy.world 4
               (Mat 2 [[Toy.f 1; Toy.f 2]; [Toy.f 3; Toy.f 5]; [Toy.f 0; Toy.f 0];
                       [Toy.f 4; Toy.f 8]])).
Proof.
  assert (H : nonzero_range_locs Toy.world 4
                (Mat 2 [[Toy.f 1; Toy.f 2]; [Toy.f 3; Toy.f 5]; [Toy.f 0; Toy.f 0];
                        [Toy.f 4; Toy.f 8]])
              = ([], Ret [0; 1; 3])) by (vm_compute; reflexivity).
  destruct (X4_fallback_selects_positive_range Toy.world 4
              (Mat 2 [[Toy.f 1; Toy.f 2]; [Toy.f 3; Toy.f 5]; [Toy.f 0; Toy.f 0];
                      [Toy.f 4; Toy.f 8]])) as [Hsel Hret].
  split; [exact H |]. split.
  - exact (proj1 (proj2 (Hsel [] [0; 1; 3] H))).
  - apply Hret; [reflexivity |].
    repeat constructor; eexists _, _; split; vm_compute; reflexivity.
Defined.

(** * Normalizer: shapes and failures *)

Lemma mmap_lift_inv_Raise {A B} (f : A → outcome B) (l : list A) (t : list event)
    (e : exn) :
  mmap (λ x, lift (f x)) l = (t, Raise e) → ∃ x, x ∈ l ∧ f x = Raise e.
Proof.
  revert t. induction l as [| x l IH]; intros t; [discriminate |].
  cbn [mmap]. rewrite lift_bind. destruct (f x) as [y | e'] eqn:Hx.
  - destruct (mmap _ l) as [t' [ys | e']] eqn:Hl.
    + rewrite (bind_Ret _ _ t' ys eq_refl). discriminate.
    + rewrite (bind_Raise _ _ t' e' eq_refl). intros [= _ ->].
      destruct (IH t' eq_refl) as (x' & Hin & Hx').
      exists x'. split; [by apply list_elem_of_further | done].
  - intros [= _ ->]. exists x. split; [apply list_elem_of_here | done].
Qed.

Section NormalizerShape.

Context {Model : Type} (W : World Model).

Lemma legal_factor_returns (a : args) (mean : list float) (pd : ndarray2) :
  normmethod a ∈ legal_normmethods → normmethod a ≠ "p2p" →
  returns (normalization_factor W a mean pd).
Proof.
  intros Hlegal Hp2p. unfold legal_normmethods in Hlegal.
  repeat (apply elem_of_cons in Hlegal as [Hlegal | Hlegal]);
    [| | | | done | | by apply elem_of_nil in Hlegal].
  - rewrite (factor_None W a mean pd Hlegal). by eexists.
  - rewrite (factor_percent W a mean pd Hlegal). by eexists.
  - rewrite (factor_stddev W a mean pd Hlegal). by eexists.
  - rewrite (factor_z W a mean pd Hlegal). by eexists.
  - rewrite (factor_mad W a mean pd Hlegal). by eexists.
Qed.

(** X5.  The Normalizer keeps the shape of [procdata]: what it returns
    has as many rows, each as long as before, and the mean vector and
    the factor vector both have one entry for each time point. *)
Theorem X5_normalizer_keeps_shape (a : args) (pd : ndarray2) (t : list event)
    (nv : norm_vars) :
  normalizer W a pd = (t, Ret nv) →
  ncols (normdata nv) = ncols pd
  ∧ nrows (normdata nv) = nrows pd
  ∧ (∀ i, length <$> rows (normdata nv) !! i = length <$> rows pd !! i)
  ∧ length (themean nv) = ncols pd
  ∧ length (thenormfac nv) = ncols pd.
Proof.
  intros H. apply normalizer_inv in H as (t' & fac & _ & Hlen & ->). simpl.
  assert (Hrow : ∀ i, length <$> rows (nan_to_num
                        (map_columns (λ j x, F64.div x (fac !!! j)) 0 (ncols pd)
                           (demeaned W a pd))) !! i
                      = length <$> rows pd !! i).
  { intros i. unfold nan_to_num, map_columns, demeaned, map_columns. simpl.
    change (map ?f ?l) with (f <$> l).
    destruct (demean a); simpl; rewrite !list_lookup_fmap;
      destruct (rows pd !! i) as [r |]; simpl; try done;
      by rewrite ?length_fmap, ?length_imap. }
  split; [| split; [| split; [done | split; [apply length_over_columns | done]]]].
  - unfold demeaned. by destruct (demean a).
  - apply Nat.le_antisymm; apply Nat.nlt_ge; intros Hlt.
    + specialize (Hrow (nrows pd)). unfold nrows in *.
      rewrite (lookup_ge_None_2 (rows pd)) in Hrow by lia.
      destruct (lookup_lt_is_Some_2 _ _ Hlt) as [r Hr].
      by rewrite Hr in Hrow.
    + specialize (Hrow (nrows (nan_to_num
                          (map_columns (λ j x, F64.div x (fac !!! j)) 0 (ncols pd)
                             (demeaned W a pd))))).
      unfold nrows in *.
      rewrite (lookup_ge_None_2 (rows (nan_to_num _))) in Hrow by lia.
      destruct (lookup_lt_is_Some_2 _ _ Hlt) as [r Hr].
      by rewrite Hr in Hrow.
Qed.

(** X6.  The Normalizer fails in two ways only: with [SystemExit] for a
    method outside the six legal ones, and, for "p2p", with whatever
    numpy's [max] or [min] raised on one of the columns. *)
Theorem X6_normalizer_failures (a : args) (pd : ndarray2) (t : list event)
    (e : exn) :
  normalizer W a pd = (t, Raise e) →
  ((normmethod a ∉ legal_normmethods) ∧ e = SystemExit)
  ∨ (normmethod a = "p2p"
     ∧ ∃ j, j < ncols pd
            ∧ (np_max W (demeaned_column W a pd j) = Raise e
               ∨ np_min W (demeaned_column W a pd j) = Raise e)).
Proof.
  intros H.
  destruct (normalization_factor W a (over_columns (np_mean W) pd) (demeaned W a pd))
    as [t' [fac | e']] eqn:Hfac.
  { destruct (normalizer_returns_total W a pd t' fac Hfac) as (? & ? & Hret & _).
    rewrite Hret in H. discriminate. }
  rewrite (normalizer_without_factor W a pd t' e' Hfac) in H. injection H as _ ->.
  destruct (decide (normmethod a ∈ legal_normmethods)) as [Hlegal | Hillegal].
  - destruct (decide (normmethod a = "p2p")) as [Hp2p | Hnp2p].
    + right. split; [done |].
      rewrite (factor_p2p W a _ _ Hp2p) in Hfac.
      destruct (over_columns_M (np_max W) (demeaned W a pd)) as [t1 [maxes | e1]] eqn:Hmax.
      * rewrite (bind_Ret _ _ t1 maxes eq_refl) in Hfac. simpl in Hfac.
        destruct (over_columns_M (np_min W) (demeaned W a pd)) as [t2 [mins | e2]] eqn:Hmin.
        { rewrite (bind_Ret _ _ t2 mins eq_refl) in Hfac. discriminate. }
        rewrite (bind_Raise _ _ t2 e2 eq_refl) in Hfac. simpl in Hfac.
        injection Hfac as _ ->.
        apply mmap_lift_inv_Raise in Hmin as (j & Hj%elem_of_seq & Hred).
        rewrite ncols_demeaned in Hj. rewrite column_demeaned in Hred by lia.
        exists j. split; [lia | by right].
      * rewrite (bind_Raise _ _ t1 e1 eq_refl) in Hfac. simpl in Hfac.
        injection Hfac as _ ->.
        apply mmap_lift_inv_Raise in Hmax as (j & Hj%elem_of_seq & Hred).
        rewrite ncols_demeaned in Hj. rewrite column_demeaned in Hred by lia.
        exists j. split; [lia | by left].
    + destruct (legal_factor_returns a (over_columns (np_mean W) pd)
                  (demeaned W a pd) Hlegal Hnp2p) as [fac Hret].
      rewrite Hfac in Hret. discriminate.
  - left. split; [done |].
    rewrite (factor_illegal W a _ _ Hillegal) in Hfac. by injection Hfac as _ <-.
Qed.

End NormalizerShape.

Lemma X5_normalizer_keeps_shape_witness :
  ∃ t nv,
    normalizer Toy.world (Toy.with_normmethod "mad" true) Toy.run_procdata
    = (t, Ret nv)
    ∧ ncols (normdata nv) = 2 ∧ nrows (normdata nv) = 3
    ∧ length (thenormfac nv) = 2.
Proof.
  assert (H : ∃ t nv,
            normalizer Toy.world (Toy.with_normmethod "mad" true) Toy.run_procdata
            = (t, Ret nv)).
  { eexists _, _. vm_compute. reflexivity. }
  destruct H as (t & nv & H). exists t, nv. split; [exact H |].
  destruct (X5_normalizer_keeps_shape Toy.world _ _ t nv H)
    as (Hc & Hr & _ & _ & Hf).
  split; [exact Hc |]. split; [exact Hr | exact Hf].
Defined.

Lemma X6_normalizer_failures_witness :
  Toy.maximum (demeaned_column Toy.world (Toy.with_normmethod "p2p" false)
                 (Mat 1 []) 0)
  = Raise (ValueError
             "zero-size array to reduction operation maximum which has no identity").
Proof.
  destruct (X6_normalizer_failures Toy.world (Toy.with_normmethod "p2p" false)
              (Mat 1 [])
              [Print [PyStr "will normalize timecourses to p-p deviation of 1.0"]]
              (ValueError
                 "zero-size array to reduction operation maximum which has no identity"))
    as [[Hill _] | (_ & j & Hj & [Hmax | Hmin])].
  - vm_compute. reflexivity.
  - destruct Hill. vm_compute. repeat constructor.
  - simpl in Hj. assert (j = 0) as -> by lia. exact Hmax.
  - simpl in Hj. assert (j = 0) as -> by lia. exfalso. vm_compute in Hmin. discriminate Hmin.
Defined.

(** * Decomposition Engine: the model and the components kept *)

Lemma ltb_zero_asym_r (x : float) :
  F64.ltb F64.zero x = true → F64.ltb x F64.zero = false.
Proof. by destruct x as [[] | [] | | [] m e]. Qed.

Lemma int_lt_one (z : Z) :
  bool_decide (Z_compare_float z F64.one = Some Lt) = bool_decide (z < 1)%Z.
Proof.
  apply bool_decide_ext. unfold Z_compare_float, F64.one. simpl.
  change (2 ^ (- (-52)))%Z with 4503599627370496%Z.
  split.
  - intros [= H]. rewrite Z.compare_lt_iff in H. lia.
  - intros H. f_equal. rewrite Z.compare_lt_iff. lia.
Qed.

Section ModelAndRetention.

Context {Model : Type} (W : World Model).

(** X7.  Which components are kept once the fitted model has
    components (lines 217-221): all of them when [pcacomponents] is a
    number below 1; the first [N] when it is an int [N] of at least 1;
    and for a float that is not below 1, such as [1.0] or [2.0], none:
    the slice [components_[0:pcacomponents]] raises [TypeError]. *)
Theorem X7_retention_by_kind (pc : pyval) (thefit : Model) (comps : ndarray2) :
  components_ W thefit = Ret comps →
  (∀ z, pc = PyInt z → (z < 1)%Z →
        retention W pc thefit
        = ([Print [PyStr "returning"; PyInt (Z.of_nat (nrows comps));
                   PyStr "components"]],
           Ret (transpose comps)))
  ∧ (∀ x, pc = PyFloat x → F64.ltb x F64.one = true →
          retention W pc thefit
          = ([Print [PyStr "returning"; PyInt (Z.of_nat (nrows comps));
                     PyStr "components"]],
             Ret (transpose comps)))
  ∧ (∀ z, pc = PyInt z → (1 ≤ z)%Z →
          retention W pc thefit
          = ([], Ret (transpose (Mat (ncols comps)
                                   (take (Z.to_nat z) (rows comps))))))
  ∧ (∀ x, pc = PyFloat x → F64.ltb x F64.one = false →
          retention W pc thefit
          = ([], Raise (TypeError
                  "slice indices must be integers or None or have an __index__ method"))).
Proof.
  intros Hcomps. unfold retention. repeat split.
  - intros z -> Hz. unfold py_lt_float.
    rewrite int_lt_one, bool_decide_eq_true_2, mret_bind by done.
    by rewrite (lift_Ret_bind _ _ _ Hcomps), print_bind.
  - intros x -> Hx. unfold py_lt_float.
    rewrite Hx, mret_bind. by rewrite (lift_Ret_bind _ _ _ Hcomps), print_bind.
  - intros z -> Hz. unfold py_lt_float.
    rewrite int_lt_one, bool_decide_eq_false_2, mret_bind by lia.
    rewrite (lift_Ret_bind _ _ _ Hcomps). unfold py_slice_rows, slice_rows.
    rewrite mret_bind. replace (z <? 0)%Z with false by (symmetry; apply Z.ltb_ge; lia).
    done.
  - intros x -> Hx. unfold py_lt_float.
    rewrite Hx, mret_bind. by rewrite (lift_Ret_bind _ _ _ Hcomps).
Qed.

End ModelAndRetention.

Lemma X7_retention_by_kind_witness :
  retention Toy.world (PyFloat F64.one)
    (Toy.Estimator "PCA" (PyFloat F64.one) (Some Toy.run_procdata))
  = ([], Raise (TypeError
          "slice indices must be integers or None or have an __index__ method"))
  ∧ retention Toy.world (PyInt 2)
      (Toy.Estimator "PCA" (PyInt 2) (Some Toy.run_procdata))
    = ([], Ret (transpose (Mat 2 [[Toy.f 1; Toy.f 2]; [Toy.f 3; Toy.f 5]]))).
Proof.
  destruct (X7_retention_by_kind Toy.world (PyFloat F64.one)
              (Toy.Estimator "PCA" (PyFloat F64.one) (Some Toy.run_procdata))
              Toy.run_procdata eq_refl) as (_ & _ & _ & Hfloat).
  destruct (X7_retention_by_kind Toy.world (PyInt 2)
              (Toy.Estimator "PCA" (PyInt 2) (Some Toy.run_procdata))
              Toy.run_procdata eq_refl) as (_ & _ & Hint & _).
  split.
  - apply (Hfloat F64.one eq_refl). reflexivity.
  - apply (Hint 2%Z eq_refl). lia.
Defined.

Ltac finish_fresh_model :=
  match goal with
  | |- context [decide (decomptype ?a = "pca")] =>
      destruct (decide (decomptype a = "pca"))
  end;
  simpl;
  match goal with
  | |- context [joblib_dump ?W ?m ?p] =>
      let Hdump := fresh "Hdump" in
      destruct (joblib_dump W m p) as [[] | ?] eqn:Hdump; simpl;
      intros [= <- <-]; simpl; rewrite ?Hdump
  end;
  (split; [done | split; [done | split; [done |]]]);
  first [ eexists [Print _]; split; [reflexivity |]
        | eexists [Print _; Print _]; split; [reflexivity |] ];
  repeat constructor; by eexists.

Section ModelPaths.

Context {Model : Type} (W : World Model).

Lemma fresh_model_inv (a : args) (t : list event) (got : Model * pyval) :
  fresh_model W a = (t, Ret got) →
  got.2 = (if is_negative (pcacomponents a) then PyStr "mle" else pcacomponents a)
  ∧ got.1 = (if decide (decomptype a = "pca") then PCA W else SparsePCA W) got.2
  ∧ joblib_dump W got.1 (outputroot a +:+ "_pca.joblib") = Ret tt
  ∧ ∃ prints,
      t = prints ++ [NewEstimator (if decide (decomptype a = "pca")
                                   then "PCA" else "SparsePCA") got.2;
                     JoblibDump (outputroot a +:+ "_pca.joblib")]
      ∧ Forall (λ ev, ∃ items, ev = Print items) prints.
Proof.
  unfold fresh_model.
  destruct (pcacomponents a) as [x | z | s |] eqn:Hpc;
    [| | discriminate | discriminate].
  - unfold py_float_lt, py_lt_float, py_mul_float, is_negative.
    pose proof (ltb_zero_asym_r x) as Hasym.
    destruct (F64.ltb F64.zero x), (F64.ltb x F64.one), (F64.ltb x F64.zero);
      try (by specialize (Hasym eq_refl)); clear Hasym;
      finish_fresh_model.
  - unfold py_float_lt, py_lt_float, py_mul_float, is_negative.
    rewrite int_lt_one.
    change (Z_compare_float z F64.zero) with (Some (z ?= 0)%Z).
    destruct (Z.compare_spec z 0) as [-> | Hneg | Hpos].
    + rewrite (bool_decide_eq_false_2 (Some Eq = Some Gt)) by done.
      rewrite (bool_decide_eq_false_2 (Some Eq = Some Lt)) by done.
      change (0 <? 0)%Z with false. finish_fresh_model.
    + rewrite (bool_decide_eq_false_2 (Some Lt = Some Gt)) by done.
      rewrite (bool_decide_eq_true_2 (Some Lt = Some Lt)) by done.
      replace (z <? 0)%Z with true by (symmetry; by apply Z.ltb_lt).
      finish_fresh_model.
    + rewrite (bool_decide_eq_true_2 (Some Gt = Some Gt)) by done.
      rewrite (bool_decide_eq_false_2 (Some Gt = Some Lt)) by done.
      rewrite (bool_decide_eq_false_2 (z < 1)%Z) by lia.
      replace (z <? 0)%Z with false by (symmetry; apply Z.ltb_ge; lia).
      finish_fresh_model.
Qed.

End ModelPaths.

Section ModelPathClaims.

Context {Model : Type} (W : World Model).

Lemma call_fit_eq (estimator : Model) (data : ndarray2) :
  call_fit W estimator data = ([FitEstimator], fit W estimator data).
Proof.
  unfold call_fit. rewrite emit_bind. by destruct (fit W estimator data).
Qed.

Lemma fresh_model_never_fits (a : args) :
  Forall (λ ev, ev ≠ FitEstimator) (trace (fresh_model W a)).
Proof.
  unfold fresh_model.
  destruct (pcacomponents a) as [x | z | s |] eqn:Hpc;
    [| | repeat constructor; discriminate | repeat constructor; discriminate].
  - unfold py_float_lt, py_lt_float, py_mul_float.
    destruct (F64.ltb F64.zero x), (F64.ltb x F64.one), (F64.ltb x F64.zero);
      destruct (decide (decomptype a = "pca")); simpl;
      destruct (joblib_dump W _ _) as [[] | ?]; simpl;
      repeat constructor; discriminate.
  - unfold py_float_lt, py_lt_float, py_mul_float.
    destruct (bool_decide _), (bool_decide _), (bool_decide _);
      destruct (decide (decomptype a = "pca")); simpl;
      destruct (joblib_dump W _ _) as [[] | ?]; simpl;
      repeat constructor; discriminate.
Qed.

(** X8.  A fresh model (lines 195-211) is saved as constructed, before
    any fit: when the step returns, the estimator is PCA or SparsePCA
    built with [pcacomponents], or with "mle" when that was negative,
    the dump to [outputroot + "_pca.joblib"] has succeeded and is the
    last thing done, after nothing but prints.  A [pcacomponents] that is
    a string or [None] raises [TypeError] at the first comparison, before
    any estimator exists; and whenever the step raises, the run ends
    there, no estimator having been fitted. *)
Theorem X8_fresh_model_is_saved_unfitted (a : args) :
  (∀ t got,
     fresh_model W a = (t, Ret got) →
     got.2 = (if is_negative (pcacomponents a) then PyStr "mle"
              else pcacomponents a)
     ∧ got.1 = (if decide (decomptype a = "pca") then PCA W else SparsePCA W) got.2
     ∧ joblib_dump W got.1 (outputroot a +:+ "_pca.joblib") = Ret tt
     ∧ ∃ prints,
         t = prints ++ [NewEstimator (if decide (decomptype a = "pca")
                                      then "PCA" else "SparsePCA") got.2;
                        JoblibDump (outputroot a +:+ "_pca.joblib")]
         ∧ Forall (λ ev, ∃ items, ev = Print items) prints)
  ∧ (pcacomponents a = PyNone ∨ (∃ s, pcacomponents a = PyStr s) →
     ∃ msg, fresh_model W a
            = ([Print [PyStr "performing pca decomposition"]],
               Raise (TypeError msg)))
  ∧ (∀ fv t e,
       decomptype a ≠ "ica" → trainedmodelroot a = None →
       fresh_model W a = (t, Raise e) →
       decomposition W a fv = (t, Raise e)
       ∧ Forall (λ ev, ev ≠ FitEstimator) t).
Proof.
  split; [| split].
  - intros t got H. by apply fresh_model_inv.
  - intros [Hnone | [s Hstr]]; unfold fresh_model; rewrite print_bind.
    + rewrite Hnone. by eexists.
    + rewrite Hstr. by eexists.
  - intros fv t e Hpca Hroot Hraise. split.
    + unfold decomposition. destruct (decide _); [done |].
      unfold pca_branch, get_model. rewrite Hroot.
      by rewrite (bind_Raise _ _ t e Hraise).
    + pose proof (fresh_model_never_fits a) as Hfit. by rewrite Hraise in Hfit.
Qed.

(** X9.  A trained model is read, not rebuilt, and then fitted again:
    when the load succeeds no estimator is constructed or saved and
    [pcacomponents] stays as passed; the next thing the run does is fit
    the loaded estimator to the new data, and a failure of that fit is
    the failure of the run. *)
Theorem X9_loaded_model_is_refitted (a : args) (fv : front_vars) (root : string)
    (thepca : Model) :
  decomptype a ≠ "ica" →
  trainedmodelroot a = Some root →
  joblib_load W (root +:+ "_pca.joblib") = inr thepca →
  get_model W a
  = ([Print [PyStr "reading PCA from"; PyStr (root +:+ "_pca.joblib")];
      JoblibLoad (root +:+ "_pca.joblib")],
     Ret (thepca, pcacomponents a))
  ∧ (∃ rest,
       trace (decomposition W a fv)
       = [Print [PyStr "reading PCA from"; PyStr (root +:+ "_pca.joblib")];
          JoblibLoad (root +:+ "_pca.joblib");
          FitEstimator] ++ rest)
  ∧ (∀ e,
       fit W thepca (transpose (normdata (f_norm fv))) = Raise e →
       decomposition W a fv
       = ([Print [PyStr "reading PCA from"; PyStr (root +:+ "_pca.joblib")];
           JoblibLoad (root +:+ "_pca.joblib");
           FitEstimator],
          Raise e)).
Proof.
  intros Hpca Hroot Hload.
  assert (Hget : get_model W a
            = ([Print [PyStr "reading PCA from"; PyStr (root +:+ "_pca.joblib")];
                JoblibLoad (root +:+ "_pca.joblib")],
               Ret (thepca, pcacomponents a))).
  { unfold get_model, load_model. rewrite Hroot, print_bind, emit_bind. simpl.
    by rewrite Hload. }
  split; [done |].
  unfold decomposition. destruct (decide _); [done |].
  unfold pca_branch. rewrite (bind_Ret _ _ _ _ Hget). cbn [fst snd].
  rewrite (call_fit_eq thepca). split.
  - destruct (fit W thepca _) as [thefit | e].
    + rewrite (bind_Ret _ _ [FitEstimator] thefit eq_refl). by eexists.
    + exists []. by rewrite (bind_Raise _ _ [FitEstimator] e eq_refl).
  - intros e Hfit. rewrite Hfit.
    by rewrite (bind_Raise _ _ [FitEstimator] e eq_refl).
Qed.

(** X10.  The ICA path never touches a persisted model: whatever
    [trainedmodelroot] is, nothing is loaded and nothing is saved. *)
Theorem X10_ica_ignores_model_files (a : args) (fv : front_vars) :
  decomptype a = "ica" →
  Forall (λ ev, is_joblib_event ev = false) (trace (decomposition W a fv)).
Proof.
  intros Hica. unfold decomposition. rewrite decide_True by done.
  unfold ica_branch, call_fit.
  destruct (icacomponents a) as [k |]; simpl;
    destruct (fit W _ _) as [thefit | e1]; simpl;
    try destruct (components_ W thefit) as [comps | e2]; simpl;
    repeat constructor.
Qed.

(** X11.  The workflow returns a result only on the PCA/SparsePCA path
    and only when the stacked data have no time point at all: with one
    time point or more no call returns. *)
Theorem X11_returns_only_without_time_points (a : args) :
  returns (niftidecomp_workflow W a) →
  decomptype a ≠ "ica"
  ∧ ∃ t fv, front W a = (t, Ret fv) ∧ totaltimepoints (f_stack fv) = 0.
Proof.
  intros H. apply workflow_returns_inv in H as (t & fv & t' & l & Hfront & Hd & Hret).
  unfold decomposition in Hd. destruct (decide (decomptype a = "ica")) as [Hica | Hpca].
  - apply ica_branch_binds_nothing in Hd. unfold return_statement in Hret.
    rewrite Hd in Hret. by destruct Hret.
  - split; [done |]. exists t, fv. split; [done |].
    destruct (pca_branch_needs_denormalize W a fv) as (inv & x & Hx).
    { eexists. by rewrite Hd. }
    destruct (totaltimepoints (f_stack fv)) as [| n] eqn:Htotal; [done |].
    by rewrite denormalize_raises in Hx by lia.
Qed.

End ModelPathClaims.

Lemma X8_fresh_model_is_saved_unfitted_witness :
  ∃ t got,
    fresh_model Toy.world Toy.run = (t, Ret got)
    ∧ got.2 = PyFloat F64.half
    ∧ got.1 = Toy.Estimator "PCA" (PyFloat F64.half) None.
Proof.
  assert (H : ∃ t got, fresh_model Toy.world Toy.run = (t, Ret got)).
  { eexists _, _. vm_compute. reflexivity. }
  destruct H as (t & got & H). exists t, got. split; [exact H |].
  destruct (proj1 (X8_fresh_model_is_saved_unfitted Toy.world Toy.run) t got H)
    as (Hpc & Hm & _).
  split; [exact Hpc |]. rewrite Hm, Hpc. reflexivity.
Defined.

Lemma X9_loaded_model_is_refitted_witness :
  get_model Toy.world (Toy.with_trainedmodelroot "trained")
  = ([Print [PyStr "reading PCA from"; PyStr "trained_pca.joblib"];
      JoblibLoad "trained_pca.joblib"],
     Ret (Toy.Estimator "PCA" (PyFloat F64.one) None, PyFloat F64.half)).
Proof.
  assert (Hfront : ∃ t fv, front Toy.world (Toy.with_trainedmodelroot "trained")
                           = (t, Ret fv)).
  { vm_compute. eauto. }
  destruct Hfront as (t & fv & _).
  refine (proj1 (X9_loaded_model_is_refitted Toy.world
                   (Toy.with_trainedmodelroot "trained") fv "trained"
                   (Toy.Estimator "PCA" (PyFloat F64.one) None) _ _ _)).
  - discriminate.
  - reflexivity.
  - vm_compute. reflexivity.
Defined.

Lemma X10_ica_ignores_model_files_witness :
  ∃ t fv,
    front Toy.world
      (Args ["bold"] "out" (Some "mask") "ica" (PyFloat F64.half) None
         (Some "trained") "None" true None F64.zero F64.quarter) = (t, Ret fv)
    ∧ Forall (λ ev, is_joblib_event ev = false)
        (trace (decomposition Toy.world
                  (Args ["bold"] "out" (Some "mask") "ica" (PyFloat F64.half) None
                     (Some "trained") "None" true None F64.zero F64.quarter) fv)).
Proof.
  eexists _, _. split; [vm_compute; reflexivity |].
  apply X10_ica_ignores_model_files. reflexivity.
Defined.

Lemma X11_returns_only_without_time_points_witness :
  returns (niftidecomp_workflow wide_world (Toy.pair_run "still" "None" true))
  ∧ ∃ t fv, front wide_world (Toy.pair_run "still" "None" true) = (t, Ret fv)
            ∧ totaltimepoints (f_stack fv) = 0.
Proof.
  assert (H : returns (niftidecomp_workflow wide_world
                         (Toy.pair_run "still" "None" true))).
  { eexists. vm_compute. reflexivity. }
  split; [exact H |].
  exact (proj2 (X11_returns_only_without_time_points wide_world
                  (Toy.pair_run "still" "None" true) H)).
Defined.

(** * Volume Stacker *)

Section StackerEdges.

Context {Model : Type} (W : World Model).

Lemma workflow_stops_in_selection (a : args) (t : list event) (e : exn) :
  selection W a = (t, Raise e) → niftidecomp_workflow W a = (t, Raise e).
Proof.
  intros H. unfold niftidecomp_workflow, front.
  by rewrite (bind_Raise (selection W a) _ t e H).
Qed.

(** X12.  With an empty list of data files the loop binds nothing, and
    the run ends with [UnboundLocalError] at the first variable of the
    loop it reads: [datafiledims], in the mask check, when a mask name
    was given, and [rs_datafile] otherwise. *)
Theorem X12_no_data_files (a : args) (t : list event) (mv : mask_vars) :
  datafilelist a = [] →
  mask_selector W a = (t, Ret mv) →
  niftidecomp_workflow W a
  = match datamaskname a with
    | Some _ =>
        (t ++ [Print [PyStr "reading in data files"];
               Print [PyStr "checking mask dimensions"]],
         Raise (UnboundLocalError "datafiledims"))
    | None =>
        (t ++ [Print [PyStr "reading in data files"];
               Print [PyStr "masking arrays"]],
         Raise (UnboundLocalError "rs_datafile"))
    end.
Proof.
  intros Hfiles Hmask.
  assert (Hstack : volume_stacker W a (numspatiallocs mv)
                   = ([Print [PyStr "reading in data files"]], Ret None)).
  { unfold volume_stacker. rewrite print_bind, Hfiles. done. }
  destruct (datamaskname a) as [name |] eqn:Hname;
    apply workflow_stops_in_selection; unfold selection;
    rewrite (bind_Ret _ _ _ _ Hmask), (bind_Ret _ _ _ _ Hstack);
    unfold masking_arrays; rewrite Hname; done.
Qed.


End StackerEdges.

Lemma X12_no_data_files_witness :
  niftidecomp_workflow Toy.world (Toy.with_files [])
  = ([Print [PyStr "Will perform pca analysis along the spatial dimension"];
      Print [PyStr "reading in mask array"];
      ReadNifti (Some "mask");
      Print [PyStr "reading in data files"];
      Print [PyStr "checking mask dimensions"]],
     Raise (UnboundLocalError "datafiledims")).
Proof.
  assert (H : ∃ mv, mask_selector Toy.world (Toy.with_files [])
                    = ([Print [PyStr "Will perform pca analysis along the spatial dimension"];
                        Print [PyStr "reading in mask array"];
                        ReadNifti (Some "mask")], Ret mv)).
  { eexists. vm_compute. reflexivity. }
  destruct H as (mv & H).
  exact (X12_no_data_files Toy.world (Toy.with_files []) _ mv eq_refl H).
Defined.


(** ** Placing one file after the other *)

Lemma run_length (nsl t v : nat) (b : list float) :
  length b = nsl * t → v < nsl → length (take t (drop (v * t) b)) = t.
Proof. intros Hb Hv. rewrite length_take, length_drop. nia. Qed.

Lemma runs_length (nsl t v : nat) (bufs : list (list float)) :
  Forall (λ b, length b = nsl * t) bufs → v < nsl →
  length (flat_map (λ b, take t (drop (v * t) b)) bufs) = t * length bufs.
Proof.
  intros Hbufs Hv. induction Hbufs as [| b bufs Hb _ IH]; simpl; [lia |].
  rewrite length_app, IH, (run_length nsl) by done. lia.
Qed.

Lemma stacked_row_length (nsl t total v : nat) (bufs : list (list float)) :
  Forall (λ b, length b = nsl * t) bufs → v < nsl → t * length bufs ≤ total →
  length (stacked_row t total bufs v) = total.
Proof.
  intros Hbufs Hv Hle. unfold stacked_row.
  rewrite length_app, (runs_length nsl), length_replicate by done. lia.
Qed.






Section Stacking.

Context {Model : Type} (W : World Model).





End Stacking.


(** * What stops the Volume Stacker, and the mask check after it *)



Section StackerStops.

Context {Model : Type} (W : World Model).






End StackerStops.



(** * The prefilter *)











(** * Smoothing *)

Lemma get_frame_4d (a : ndarray) (x y s t i : nat) :
  shape a = [x; y; s; t] → i < t →
  get_frame a i = mret (frame4 x y s t a i).
Proof.
  intros Hshape Hi. unfold get_frame, frame4. rewrite Hshape.
  rewrite (proj2 (Nat.ltb_lt _ _) Hi). cbn [product foldr].
  do 2 f_equal. generalize (seq 0 (x * y * s)). intros l.
  cbn [seq map].
  induction l as [| v l IH]; [done |].
  cbn [flat_map map app]. rewrite IH. do 2 f_equal. lia.
Qed.

Lemma set_frame_4d (a : ndarray) (x y s t i : nat) (fr : ndarray) :
  shape a = [x; y; s; t] → i < t → shape fr = [x; y; s] →
  set_frame a i fr
  = mret (NdArray (shape a)
            (imap (λ k old, if k mod t =? i then buf fr !!! (k / t) else old)
                  (buf a))).
Proof.
  intros Hshape Hi Hfr. unfold set_frame. rewrite Hshape.
  rewrite (proj2 (Nat.ltb_lt _ _) Hi). rewrite decide_True by done.
  cbn [product foldr]. do 2 f_equal. apply imap_ext. intros k old _.
  by rewrite Nat.div_1_r, Nat.mul_1_r, Nat.mul_1_r, Nat.mod_1_r, Nat.add_0_r.
Qed.

Lemma smoothed_upto_0 (sm : ndarray → ndarray) (x y s t : nat) (data : ndarray) :
  smoothed_upto sm x y s t 0 data = data.
Proof.
  unfold smoothed_upto. destruct data as [sh b]. cbn [shape buf]. f_equal.
  apply list_eq. intros k. rewrite list_lookup_imap. by destruct (b !! k).
Qed.

Lemma smoothed_upto_lookup (sm : ndarray → ndarray) (x y s t lo v j : nat)
    (data : ndarray) :
  length (buf data) = x * y * s * t → v < x * y * s → j < t →
  buf (smoothed_upto sm x y s t lo data) !!! (v * t + j)
  = if j <? lo then buf (sm (frame4 x y s t data j)) !!! v
    else buf data !!! (v * t + j).
Proof.
  intros Hlen Hv Hj. unfold smoothed_upto. cbn [buf].
  assert (Hk : v * t + j < length (buf data)) by nia.
  destruct (lookup_lt_is_Some_2 _ _ Hk) as [old Hold].
  rewrite (list_lookup_total_correct _ _ (if (v * t + j) mod t <? lo
             then buf (sm (frame4 x y s t data ((v * t + j) mod t)))
                    !!! ((v * t + j) / t)
             else old)) by (by rewrite list_lookup_imap, Hold).
  rewrite (list_lookup_total_correct _ _ _ Hold).
  assert (Hmod : (v * t + j) mod t = j).
  { rewrite Nat.add_comm, Nat.Div0.mod_add. by apply Nat.mod_small. }
  assert (Hdiv : (v * t + j) / t = v).
  { rewrite Nat.add_comm, Nat.div_add by lia. rewrite Nat.div_small by done. lia. }
  by rewrite Hmod, Hdiv.
Qed.

Lemma frame4_smoothed_upto (sm : ndarray → ndarray) (x y s t lo i : nat)
    (data : ndarray) :
  length (buf data) = x * y * s * t → i < t →
  frame4 x y s t (smoothed_upto sm x y s t lo data) i
  = NdArray [x; y; s]
      (map (λ v, if i <? lo then buf (sm (frame4 x y s t data i)) !!! v
                 else buf data !!! (v * t + i))
           (seq 0 (x * y * s))).
Proof.
  intros Hlen Hi. unfold frame4 at 1. f_equal.
  apply map_ext_in. intros v Hv. apply in_seq in Hv.
  apply smoothed_upto_lookup; [done | lia | done].
Qed.

Lemma smoothed_upto_step (sm : ndarray → ndarray) (x y s t lo : nat)
    (data : ndarray) :
  NdArray (shape data)
    (imap (λ k old, if k mod t =? lo
                    then buf (sm (frame4 x y s t data lo)) !!! (k / t)
                    else old)
          (buf (smoothed_upto sm x y s t lo data)))
  = smoothed_upto sm x y s t (S lo) data.
Proof.
  unfold smoothed_upto. cbn [buf]. f_equal. apply list_eq. intros k.
  rewrite !list_lookup_imap. destruct (buf data !! k) as [old |]; [| done].
  cbn [fmap option_fmap option_map]. f_equal.
  destruct (k mod t =? lo) eqn:Heq.
  - apply Nat.eqb_eq in Heq. rewrite Heq.
    by replace (lo <? S lo) with true by (symmetry; apply Nat.ltb_lt; lia).
  - apply Nat.eqb_neq in Heq.
    destruct (k mod t <? lo) eqn:Hlt.
    + apply Nat.ltb_lt in Hlt.
      by replace (k mod t <? S lo) with true by (symmetry; apply Nat.ltb_lt; lia).
    + apply Nat.ltb_ge in Hlt.
      by replace (k mod t <? S lo) with false by (symmetry; apply Nat.ltb_ge; lia).
Qed.

Lemma lookups_of_all (l : list float) :
  map (λ v, l !!! v) (seq 0 (length l)) = l.
Proof.
  apply list_eq. intros i. change (map ?f ?k) with (f <$> k).
  rewrite list_lookup_fmap.
  destruct (decide (i < length l)) as [Hi | Hi].
  - rewrite lookup_seq_lt by done. cbn [fmap option_fmap option_map plus].
    by rewrite <- list_lookup_lookup_total_lt.
  - rewrite lookup_seq_ge, lookup_ge_None_2 by lia. done.
Qed.

Section Smoothing.

Context {Model : Type} (W : World Model).

(** The loop of lines 98-101 in closed form: the frame a turn reads is
    still the one of the data as read, since the turns before it wrote
    other frames. *)
Lemma frame_loop (sm : ndarray → ndarray) (x y s t lo n : nat) (data : ndarray) :
  shape data = [x; y; s; t] →
  length (buf data) = x * y * s * t →
  (∀ i, i < t → shape (sm (frame4 x y s t data i)) = [x; y; s]) →
  lo + n ≤ t →
  mfor (seq lo n) (λ i d, fr ← get_frame d i; set_frame d i (sm fr))
    (smoothed_upto sm x y s t lo data)
  = ([], Ret (smoothed_upto sm x y s t (lo + n) data)).
Proof.
  intros Hshape Hlen Hsm. revert lo.
  induction n as [| n IH]; intros lo Hle.
  - cbn [seq mfor]. by rewrite Nat.add_0_r.
  - cbn [seq mfor].
    rewrite (get_frame_4d _ x y s t lo) by (done || lia).
    rewrite mret_bind, frame4_smoothed_upto by (done || lia).
    rewrite Nat.ltb_irrefl. fold (frame4 x y s t data lo).
    rewrite (set_frame_4d _ x y s t lo) by (done || lia || (apply Hsm; lia)).
    rewrite mret_bind.
    change (shape (smoothed_upto sm x y s t lo data)) with (shape data).
    rewrite smoothed_upto_step, IH by lia.
    by replace (S lo + n) with (lo + S n) by lia.
Qed.

(** X18.  Smoothing works frame by frame: the array keeps its shape and
    size, each of the first [timepoints] frames is replaced by the
    smoothed frame of the data as read, and the frames after them, if
    the array has more, are left as they are. *)
Theorem X18_smoothing_is_frame_by_frame (a : args) (v : stack_vars)
    (data : ndarray) (x y s t : nat) :
  F64.gtb (sigma a) F64.zero = true →
  shape data = [x; y; s; t] →
  length (buf data) = x * y * s * t →
  timepoints v ≤ t →
  (∀ fr, shape fr = [x; y; s] → length (buf fr) = x * y * s →
     shape (ssmooth W (xdim v) (ydim v) (slicethickness v) (sigma a) fr)
     = [x; y; s]
     ∧ length (buf (ssmooth W (xdim v) (ydim v) (slicethickness v) (sigma a) fr))
       = x * y * s) →
  ∃ out,
    smooth_data W a v data
    = ([Print [PyStr (tab +:+ "smoothing data")]], Ret out)
    ∧ shape out = shape data
    ∧ length (buf out) = length (buf data)
    ∧ ∀ i fr, i < t → get_frame data i = ([], Ret fr) →
        get_frame out i
        = ([], Ret (if i <? timepoints v
                    then ssmooth W (xdim v) (ydim v) (slicethickness v) (sigma a) fr
                    else fr)).
Proof.
  intros Hsigma Hshape Hlen Htp Hkeeps.
  set (sm := ssmooth W (xdim v) (ydim v) (slicethickness v) (sigma a)) in *.
  exists (smoothed_upto sm x y s t (timepoints v) data).
  split; [| split; [done | split]].
  - assert (Hsm : ∀ i, i < t → shape (sm (frame4 x y s t data i)) = [x; y; s]).
    { intros i Hi. apply Hkeeps; [done |].
      unfold frame4. cbn [buf]. by rewrite length_map, length_seq. }
    pose proof (frame_loop sm x y s t 0 (timepoints v) data
                  Hshape Hlen Hsm Htp) as Hloop.
    rewrite smoothed_upto_0 in Hloop. cbn [plus] in Hloop.
    unfold smooth_data. rewrite Hsigma, print_bind. fold sm.
    by rewrite Hloop.
  - unfold smoothed_upto. cbn [buf]. by rewrite length_imap.
  - intros i fr Hi Hfr.
    rewrite (get_frame_4d _ x y s t i Hshape Hi) in Hfr.
    injection Hfr as <-.
    rewrite (get_frame_4d _ x y s t i) by done.
    rewrite frame4_smoothed_upto by done.
    destruct (i <? timepoints v) eqn:Hlt.
    + destruct (Hkeeps (frame4 x y s t data i) eq_refl) as [Hsh Hbuf].
      { unfold frame4. cbn [buf]. by rewrite length_map, length_seq. }
      unfold mret, M_ret, ret. do 2 f_equal.
      destruct (sm (frame4 x y s t data i)) as [sh b]. cbn [shape buf] in *.
      subst sh. f_equal. rewrite <- Hbuf. apply lookups_of_all.
    + reflexivity.
Qed.

End Smoothing.

Lemma X18_smoothing_is_frame_by_frame_witness :
  ∃ out,
    smooth_data Toy.world
      (Args ["row"] "out" (Some "mask") "pca" (PyFloat F64.half) None None
         "None" true None F64.one F64.quarter)
      (first_state Toy.world 4 1 row_file) (nim_data row_file)
    = ([Print [PyStr (tab +:+ "smoothing data")]], Ret out)
    ∧ length (buf out) = 8.
Proof.
  destruct (X18_smoothing_is_frame_by_frame Toy.world
              (Args ["row"] "out" (Some "mask") "pca" (PyFloat F64.half) None
                 None "None" true None F64.one F64.quarter)
              (first_state Toy.world 4 1 row_file) (nim_data row_file)
              4 1 1 2 eq_refl eq_refl eq_refl)
    as (out & Hrun & _ & Hlen & _).
  - simpl. lia.
  - intros fr Hsh Hbuf. split; [exact Hsh | exact Hbuf].
  - exists out. split; [exact Hrun | exact Hlen].
Defined.

(** * What a returned result holds *)




Section ReturnedResult.

Context {Model : Type} (W : World Model).


End ReturnedResult.


(** * From the files to [procdata] *)

Section SelectedData.

Context {Model : Type} (W : World Model).




End SelectedData.

